(** * udp-proxy-2020: the relay engine of cmd/listen.go

    A shallow embedding of the listener set-up ([processListener],
    [initalizeListeners]), of the rewrite path ([sendPacket]) and of the
    per-interface loop ([handlePackets]), together with the properties the
    design document states about them. *)

From Stdlib Require Import ZArith List Lia Bool String Ascii.
From Stdlib.Strings Require Import Byte.
From stdpp Require Import base strings gmap list pretty.

Local Open Scope string_scope.
Local Open Scope list_scope.
Local Open Scope Z_scope.

(** ** Bytes and Go strings

    A Go [string] is a sequence of bytes, rendered as a Rocq [string]; a
    [[]byte] is a [list byte]. *)

Definition b2z (b : byte) : Z := Z.of_N (Byte.to_N b).

(** [[]byte(s)] *)
Definition bytes_of_string (s : string) : list byte := list_byte_of_string s.

(** [strings.Split(s, sep)] for a separator of one byte, which is the only
    way the program calls it: the pieces between the occurrences of [sep],
    one more piece than there are occurrences. *)
Fixpoint Split (s : string) (sep : ascii) : list string :=
  match s with
  | EmptyString => [EmptyString]
  | String c rest =>
      if Ascii.eqb c sep then EmptyString :: Split rest sep
      else match Split rest sep with
           | piece :: pieces => String c piece :: pieces
           | [] => [String c EmptyString]
           end
  end.

(** Number of occurrences of a byte in a string. *)
Fixpoint count_byte (sep : ascii) (s : string) : nat :=
  match s with
  | EmptyString => O
  | String c rest => ((if Ascii.eqb c sep then 1 else 0) + count_byte sep rest)%nat
  end.

(** [strings.HasPrefix(s, prefix)] *)
Fixpoint HasPrefix (s prefix : string) : bool :=
  match prefix, s with
  | EmptyString, _ => true
  | String _ _, EmptyString => false
  | String p prefix', String c s' => Ascii.eqb c p && HasPrefix s' prefix'
  end.

(** Modelled from the spec: [stringPrefixInSlice] is called by
    [processListener] and declared in another file of the package; the design
    document does not describe it. It is rendered after its name and its call
    site (the argument is the name followed by the separator, [iface_prefix]):
    some element of the slice starts with the given prefix,
    [strings.HasPrefix(b, a)] for some [b] of the slice. *)
Definition stringPrefixInSlice (a : string) (slice : list string) : bool :=
  existsb (fun b => HasPrefix b a) slice.

(** ** Packets, layers and headers (gopacket, golang.org/x/net/ipv4) *)

(** [gopacket.LayerType]: the layer types the program names, and the rest. *)
Inductive LayerType : Type :=
  | LayerTypeZero
  | LayerTypePayload
  | LayerTypeFragment
  | LayerTypeEthernet
  | LayerTypeLoopback
  | LayerTypeIPv4
  | LayerTypeUDP
  | LayerTypeOther (id : Z).

#[global] Instance LayerType_eq_dec : EqDecision LayerType.
Proof. solve_decision. Defined.

(** [layers.LinkType] is a [uint8]; the values are those of pcap-linktype(7). *)
Definition LinkType : Type := Z.
Definition LinkTypeNull : LinkType := 0.
Definition LinkTypeEthernet : LinkType := 1.
Definition LinkTypeLoop : LinkType := 108.
Definition LinkTypeLinuxSLL : LinkType := 113.

(** List of LayerTypes we support in sendPacket() *)
Definition validLinkTypes : list LinkType :=
  [LinkTypeLoop; LinkTypeEthernet; LinkTypeNull].

(** Returns if the provided layertype is valid *)
Definition isValidLayerType (layertype : LinkType) : bool :=
  existsb (fun b => Z.eqb b layertype) validLinkTypes.

(** [layers.IPv4Option] *)
Record IPv4Option : Type := mkIPv4Option {
  OptionType : Z;            (* uint8 *)
  OptionLength : Z;          (* uint8 *)
  OptionData : list byte
}.

(** [layers.IPv4], the fields of the decoded header. *)
Record IPv4 : Type := mkIPv4 {
  ip_Version : Z;            (* uint8 *)
  IHL : Z;                   (* uint8, in 32-bit words *)
  ip_TOS : Z;                (* uint8 *)
  Length : Z;                (* uint16 *)
  Id : Z;                    (* uint16 *)
  ip_Flags : Z;              (* IPv4Flag, 3 bits *)
  FragOffset : Z;            (* uint16, 13 bits *)
  ip_TTL : Z;                (* uint8 *)
  ip_Protocol : Z;           (* IPProtocol, uint8 *)
  ip_Checksum : Z;           (* uint16 *)
  SrcIP : list byte;         (* net.IP *)
  DstIP : list byte;         (* net.IP *)
  ip_Options : list IPv4Option;
  Padding : list byte
}.

(** [ipv4.Header], what is handed to the raw socket. *)
Record Header : Type := mkHeader {
  Version : Z;
  Len : Z;
  TOS : Z;
  TotalLen : Z;
  ID : Z;
  Flags : Z;
  FragOff : Z;
  TTL : Z;
  Protocol : Z;
  Checksum : Z;
  Src : list byte;
  Dst : list byte;
  Options : list byte
}.

(** [gopacket.Packet], through the methods the program calls: the captured
    bytes, the layers the capture source decoded, and the error layer when
    decoding went wrong part of the way. *)
Record Packet : Type := mkPacket {
  Data : list byte;
  NetworkLayer : option LayerType;
  TransportLayer : option LayerType;
  ErrorLayer : option string
}.

(** [Send], the message passed between the interfaces: the struct is declared
    next to [SendPktFeed]; these are the fields [sendPacket] reads and
    [SendPktFeed.Send] receives. *)
Record Send : Type := mkSend {
  packet : Packet;
  srcif : string;
  linkType : LinkType
}.

(** ** The world the program acts on *)

Inductive Level : Type := LDebug | LWarn | LError | LFatal.

(** One constructor per log call of listen.go and interfaces.go. *)
Inductive Msg : Type :=
  | MsgInvalidListen (i : string)
  | MsgSameInterface (iface : string)
  | MsgInvalidPacket (iface : string)
  | MsgErrorLayer (iface err : string)
  | MsgForwarding (iface : string)
  | MsgTicker (iface : string)
  | MsgProcessing (srcif iface : string)
  | MsgUnsupportedLinkType (lt : LinkType)
  | MsgUnableToDecode (srcif err : string)
  | MsgNotIPv4UDP (srcif : string)
  | MsgHeader (h : Header)
  | MsgControlMessage (err : string)
  | MsgUnableToSend (iface err : string)
  | MsgNotConfigured
  | MsgIfaceError (iface err : string)
  | MsgOpenedPcap (iface : string)
  | MsgIfaceIP (iface ip : string)
  | MsgListening (iface addr : string)
  | MsgNoListen (iface : string)
  | MsgOpenedRaw (iface addr : string)
  | MsgFindAllDevs (err : string).

(** A buffered channel of [Send]: [make(chan Send, n)]. *)
Record Chan : Type := mkChan {
  cap : nat;
  buf : list Send
}.

(** One call of [RawConn.WriteTo]: the interface whose socket it is, the
    source interface of the message being relayed, the header and the bytes
    handed over, and the error the socket answered. *)
Record Write : Type := mkWrite {
  w_iface : string;
  w_srcif : string;
  w_header : Header;
  w_payload : list byte;
  w_err : option string
}.

(** [pcap.InterfaceAddress] and [pcap.Interface] *)
Record InterfaceAddress : Type := mkInterfaceAddress {
  IP : list byte;
  Netmask : list byte;
  Broadaddr : list byte;
  P2P : list byte
}.

Record Interface : Type := mkInterface {
  Name : string;
  Addresses : list InterfaceAddress
}.

(** The calls made to libpcap and to the socket layer, in order. *)
Inductive Call : Type :=
  | CallFindAllDevs
  | CallNewInactiveHandle (iface : string)
  | CallSetTimeout (iface : string) (t : Z)
  | CallSetPromisc (iface : string) (p : bool)
  | CallSetSnapLen (iface : string) (n : Z)
  | CallActivate (iface : string)
  | CallSetBPFFilter (iface filter : string)
  | CallSetDirectionIn (iface : string)
  | CallListenPacket (network addr : string)
  | CallNewPacketConn (addr : string)
  | CallNewRawConn (addr : string)
  | CallClosePacketConn (addr : string)
  | CallCloseConn (addr : string)
  | CallCleanUp (iface : string).

(** The log, the channels made so far (a channel is its index), the table of
    the [SendPktFeed], the datagrams handed to the raw sockets, the global
    [Interfaces] and the calls made to the operating system. *)
Record World : Type := mkWorld {
  wlog : list (Level * Msg);
  chans : list Chan;
  senders : gmap string nat;
  wire : list Write;
  Interfaces : gmap string Interface;
  calls : list Call
}.

Definition set_wlog (f : list (Level * Msg) -> list (Level * Msg)) (w : World) : World :=
  mkWorld (f (wlog w)) (chans w) (senders w) (wire w) (Interfaces w) (calls w).
Definition set_chans (f : list Chan -> list Chan) (w : World) : World :=
  mkWorld (wlog w) (f (chans w)) (senders w) (wire w) (Interfaces w) (calls w).
Definition set_senders (f : gmap string nat -> gmap string nat) (w : World) : World :=
  mkWorld (wlog w) (chans w) (f (senders w)) (wire w) (Interfaces w) (calls w).
Definition set_wire (f : list Write -> list Write) (w : World) : World :=
  mkWorld (wlog w) (chans w) (senders w) (f (wire w)) (Interfaces w) (calls w).
Definition set_Interfaces (f : gmap string Interface -> gmap string Interface) (w : World) : World :=
  mkWorld (wlog w) (chans w) (senders w) (wire w) (f (Interfaces w)) (calls w).
Definition set_calls (f : list Call -> list Call) (w : World) : World :=
  mkWorld (wlog w) (chans w) (senders w) (wire w) (Interfaces w) (f (calls w)).

(** Why a goroutine stops: [log.Fatal] exits the process, a method called on a
    nil handle panics, a send on a full channel suspends the sender. *)
Inductive Halt : Type := Fatal | NilDeref | Blocked.

Inductive Res (A : Type) : Type :=
  | Ret (a : A) (w : World)
  | Stop (h : Halt) (w : World).
Arguments Ret {A} a w.
Arguments Stop {A} h w.

Definition M (A : Type) : Type := World -> Res A.

Definition pure {A : Type} (a : A) : M A := fun w => Ret a w.

Definition bind {A B : Type} (m : M A) (f : A -> M B) : M B := fun w =>
  match m w with
  | Ret a w' => f a w'
  | Stop h w' => Stop h w'
  end.

Declare Scope go_scope.
Delimit Scope go_scope with go.
Notation "x ← y ; z" := (bind y (fun x => z))
  (at level 20, y at level 100, z at level 200, only parsing) : go_scope.
Notation "x ;; z" := (bind x (fun _ => z))
  (at level 100, z at level 200, only parsing, right associativity) : go_scope.
Local Open Scope go_scope.

Definition logf (lvl : Level) (m : Msg) : M unit :=
  fun w => Ret tt (set_wlog (fun l => l ++ [(lvl, m)]) w).
Definition Debugf := logf LDebug.
Definition Warnf := logf LWarn.
Definition Errorf := logf LError.

(** [log.Fatalf]: the line is logged and the process exits. *)
Definition Fatalf {A : Type} (m : Msg) : M A :=
  fun w => Stop Fatal (set_wlog (fun l => l ++ [(LFatal, m)]) w).

(** [make(chan Send, n)] *)
Definition make_chan (n : nat) : M nat :=
  fun w => Ret (length (chans w)) (set_chans (fun cs => cs ++ [mkChan n []]) w).

(** ** Listeners *)

Definition SendBufferSize : nat := 100.

(** [pcap.Handle], as far as the program asks it: the link type. *)
Record Handle : Type := mkHandle {
  handle_LinkType : LinkType
}.

(** [ipv4.RawConn]: what the socket answers to the two calls made on it. *)
Record RawConn : Type := mkRawConn {
  SetControlMessage_err : option string;
  WriteTo_err : option string
}.

(** Struct containing everything for an interface *)
Record Listen : Type := mkListen {
  iface : string;            (* interface to use *)
  filter : string;           (* bpf filter string to listen on *)
  ports : list Z;            (* port(s) we listen for packets *)
  ipaddr : string;           (* dstip we send packets to *)
  promisc : bool;            (* do we enable promisc on this interface? *)
  handle : option Handle;
  raw : option RawConn;
  timeout : Z;
  sendpkt : nat              (* channel used to recieve packets we need to send *)
}.

(** takes the list of listen or promisc and returns a list of Listen which
    then can be initialized. The slice behind [interfaces] and [ret] are the
    state of the loop over [lp]. *)
Fixpoint processListener_range (lp : list string) (promisc : bool) (bpf_filter : string)
    (ports : list Z) (to : Z) (interfaces : list string) (ret : list Listen)
    : M (list string * list Listen) :=
  match lp with
  | [] => pure (interfaces, ret)
  | i :: lp' =>
      match Split i "@" with
      | [iface; ipaddr] =>
          let iface_prefix := String.append iface "@" in
          if stringPrefixInSlice iface_prefix interfaces
          then Fatalf (MsgSameInterface iface)
          else
            ch ← make_chan SendBufferSize;
            let new := mkListen iface bpf_filter ports ipaddr promisc None None to ch in
            processListener_range lp' promisc bpf_filter ports to
              (interfaces ++ [iface]) (ret ++ [new])
      | _ => Fatalf (MsgInvalidListen i)
      end
  end.

Definition processListener (interfaces : list string) (lp : list string) (promisc : bool)
    (bpf_filter : string) (ports : list Z) (to : Z) : M (list string * list Listen) :=
  processListener_range lp promisc bpf_filter ports to interfaces [].

(** takes list of interfaces to listen on, if we should listen promiscuously,
    the BPF filter, list of ports and timeout and returns a list of
    processListener *)
Definition initalizeListeners (ifaces : list string) (promisc : bool) (bpf_filter : string)
    (ports : list Z) (timeout : Z) : M (list Listen) :=
  a ← processListener [] ifaces promisc bpf_filter ports timeout;
  pure (fold_left (fun listeners x => listeners ++ [x]) (snd a) []).

Definition world0 : World := mkWorld [] [] ∅ [] ∅ [].

(** ** Vocabulary of the statements about configuration *)


(** The two parts of an [interface@ipaddr] entry. *)
Definition iface_of (i : string) : string := nth 0 (Split i "@") EmptyString.
Definition ipaddr_of (i : string) : string := nth 1 (Split i "@") EmptyString.

(** An entry is well formed when it has exactly one separator. *)
Definition well_formed (i : string) : Prop := count_byte "@" i = 1%nat.

(** The listeners a list of well-formed entries stands for, the first one
    receiving channel [ch]. *)
Fixpoint listens_of (lp : list string) (promisc : bool) (bpf_filter : string)
    (ports : list Z) (to : Z) (ch : nat) : list Listen :=
  match lp with
  | [] => []
  | i :: lp' =>
      mkListen (iface_of i) bpf_filter ports (ipaddr_of i) promisc None None to ch
        :: listens_of lp' promisc bpf_filter ports to (S ch)
  end.

(** The world after [n] more channels were made. *)
Definition with_fresh_chans (n : nat) (w : World) : World :=
  set_chans (fun cs => cs ++ repeat (mkChan SendBufferSize []) n) w.

(** ** Opening an interface (interfaces.go) *)

(** [net.IP.To4]: the 4-byte form of an address, nil (the empty list) when it
    has none. *)
Definition isZeros (p : list byte) : bool := forallb (fun b => Byte.eqb b x00) p.

Definition To4 (ip : list byte) : list byte :=
  if Nat.eqb (length ip) 4 then ip
  else if Nat.eqb (length ip) 16 && isZeros (firstn 10 ip)
          && Byte.eqb (nth 10 ip x00) xff && Byte.eqb (nth 11 ip x00) xff
       then skipn 12 ip
       else [].

(** [net.IP.String] for the addresses that have a 4-byte form: dotted
    decimal. The program only prints those. *)
Definition uitoa (b : byte) : string := pretty (Byte.to_N b).

Definition IP_String (ip : list byte) : string :=
  match To4 ip with
  | [a; b; c; d] =>
      String.append (uitoa a) (String.append "." (String.append (uitoa b)
        (String.append "." (String.append (uitoa c) (String.append "." (uitoa d))))))
  | _ => match ip with [] => "<nil>" | _ => "?" end
  end.

(** What libpcap and the socket layer answer; an error is its text. *)
Record Sys : Type := mkSys {
  FindAllDevs : list Interface + string;
  NewInactiveHandle : string -> option string;
  SetTimeout : string -> Z -> option string;
  SetPromisc : string -> bool -> option string;
  SetSnapLen : string -> Z -> option string;
  Activate : string -> Handle + string;
  SetBPFFilter : string -> string -> option string;
  SetDirection : string -> option string;
  ListenPacket : string -> string -> option string;
  NewRawConn : string -> RawConn + string;
  LocalAddr : string -> string
}.

Definition gets {A : Type} (f : World -> A) : M A := fun w => Ret (f w) w.
Definition call (c : Call) : M unit :=
  fun w => Ret tt (set_calls (fun cs => cs ++ [c]) w).

(** [if err != nil { log.Fatalf("%s: %s", l.iface, err) }] *)
Definition check (iface : string) (err : option string) : M unit :=
  match err with
  | Some e => Fatalf (MsgIfaceError iface e)
  | None => pure tt
  end.

(** Uses libpcap to get a list of configured interfaces and populate the
    Interfaces. *)
Definition getConfiguredInterfaces (os : Sys) : M unit :=
  known ← gets Interfaces;
  if negb (Nat.eqb (size known) 0) then pure tt
  else
    call CallFindAllDevs;;
    match FindAllDevs os with
    | inr err => Fatalf (MsgFindAllDevs err)
    | inl ifs =>
        fun w => Ret tt (set_Interfaces (fun m =>
          fold_left (fun m i =>
            if Nat.eqb (length (Addresses i)) 0 then m else <[Name i := i]> m) ifs m) w)
    end.

(** The addresses of [Interfaces[name]]; a missing key gives the zero value. *)
Definition addresses_of (m : gmap string Interface) (name : string) : list InterfaceAddress :=
  match m !! name with
  | Some i => Addresses i
  | None => []
  end.

(** The loop that looks for the first address with a 4-byte form. *)
Fixpoint first_ipv4 (addrs : list InterfaceAddress) : option InterfaceAddress :=
  match addrs with
  | [] => None
  | ip :: rest =>
      match To4 (IP ip) with
      | [] => first_ipv4 rest
      | _ => Some ip
      end
  end.

(** [initalizeInterface]: the capture handle, then the raw socket. The three
    deferred calls run when the function returns, last one first. *)
Definition initalizeInterface (os : Sys) (l : Listen) : M Listen :=
  getConfiguredInterfaces os;;
  known ← gets Interfaces;
  if Nat.eqb (length (addresses_of known (iface l))) 0 then Fatalf MsgNotConfigured
  else
    call (CallNewInactiveHandle (iface l));;
    check (iface l) (NewInactiveHandle os (iface l));;
    call (CallSetTimeout (iface l) (timeout l));;
    check (iface l) (SetTimeout os (iface l) (timeout l));;
    call (CallSetPromisc (iface l) (promisc l));;
    check (iface l) (SetPromisc os (iface l) (promisc l));;
    call (CallSetSnapLen (iface l) 9000);;
    check (iface l) (SetSnapLen os (iface l) 9000);;
    call (CallActivate (iface l));;
    match Activate os (iface l) with
    | inr err => Fatalf (MsgIfaceError (iface l) err)
    | inl h =>
        call (CallSetBPFFilter (iface l) (filter l));;
        check (iface l) (SetBPFFilter os (iface l) (filter l));;
        call (CallSetDirectionIn (iface l));;
        check (iface l) (SetDirection os (iface l));;
        Debugf (MsgOpenedPcap (iface l));;
        match first_ipv4 (addresses_of known (iface l)) with
        | None => Fatalf (MsgNoListen (iface l))
        | Some ip =>
            let listen := IP_String (IP ip) in
            Debugf (MsgIfaceIP (iface l) listen);;
            call (CallListenPacket "ip:udp" listen);;
            check (iface l) (ListenPacket os "ip:udp" listen);;
            Debugf (MsgListening (iface l) listen);;
            call (CallNewPacketConn listen);;
            call (CallNewRawConn listen);;
            match NewRawConn os listen with
            | inr err => Fatalf (MsgIfaceError (iface l) err)
            | inl rc =>
                Debugf (MsgOpenedRaw (iface l) (LocalAddr os listen));;
                call (CallClosePacketConn listen);;
                call (CallCloseConn listen);;
                call (CallCleanUp (iface l));;
                pure (mkListen (iface l) (filter l) (ports l) (ipaddr l) (promisc l)
                        (Some h) (Some rc) (timeout l) (sendpkt l))
            end
        end
    end.

(** ** Start-up *)

(** Modelled from the spec: [main], which calls the functions above, is
    declared in another file of the package. Start-up as sections 3, 4.2 and 6
    of the design describe it: the configuration list is processed first, then
    every Endpoint is opened in turn. *)
Fixpoint open_all (os : Sys) (ls : list Listen) : M (list Listen) :=
  match ls with
  | [] => pure []
  | l :: rest =>
      l' ← initalizeInterface os l;
      rest' ← open_all os rest;
      pure (l' :: rest')
  end.

Definition startup (os : Sys) (ifaces : list string) (promisc : bool) (bpf_filter : string)
    (ports : list Z) (timeout : Z) : M (list Listen) :=
  ls ← initalizeListeners ifaces promisc bpf_filter ports timeout;
  open_all os ls.

(** The capture handles opened so far. *)
Definition is_open_call (c : Call) : bool :=
  match c with
  | CallNewInactiveHandle _ | CallActivate _ => true
  | _ => false
  end.

Definition opened_handles (w : World) : list Call := List.filter is_open_call (calls w).

(** ** A host to run the examples on

    Two interfaces with one IPv4 address each; every call succeeds. *)
Definition example_interfaces : list Interface :=
  [ mkInterface "eth0" [mkInterfaceAddress [xc0; xa8; x01; x01] [xff; xff; xff; x00]
                                           [xc0; xa8; x01; xff] []];
    mkInterface "eth1" [mkInterfaceAddress [xc0; xa8; x02; x01] [xff; xff; xff; x00]
                                           [xc0; xa8; x02; xff] []] ].

Definition example_sys : Sys :=
  mkSys (inl example_interfaces)
        (fun _ => None) (fun _ _ => None) (fun _ _ => None) (fun _ _ => None)
        (fun _ => inl (mkHandle LinkTypeEthernet))
        (fun _ _ => None) (fun _ => None) (fun _ _ => None)
        (fun _ => inl (mkRawConn None None))
        (fun addr => addr).

(** ** The rewrite path (sendPacket) *)

(** [gopacket.NewDecodingLayerParser(first, decoders...)]: the type of the
    outermost layer and the types of the layers it has decoders for. *)
Record Parser : Type := NewDecodingLayerParser {
  parser_first : LayerType;
  parser_decoders : list LayerType
}.

(** What [parser.DecodeLayers] leaves behind when it returns no error: the
    list of the layer types it decoded and the layer variables the program
    reads afterwards. *)
Record Decoded : Type := mkDecoded {
  decoded : list LayerType;
  ip4 : IPv4;
  payload : list byte
}.

(** The library functions the rewrite path calls. [DecodeLayers] answers the
    decoded layers or the text of an error. *)
Record Lib : Type := mkLib {
  DecodeLayers : Parser -> list byte -> Decoded + string;
  ParseIP : string -> list byte
}.

(** [fmt] with [%v]: a [uint8] in decimal, a [[]byte] as its elements in
    decimal between brackets. *)
Definition fmt_uint (n : Z) : string := pretty n.

Fixpoint fmt_elems (data : list byte) : string :=
  match data with
  | [] => ""
  | [b] => uitoa b
  | b :: rest => String.append (uitoa b) (String " " (fmt_elems rest))
  end.

Definition fmt_bytes (data : list byte) : string :=
  String.append "[" (String.append (fmt_elems data) "]").

(** [IPv4Option.String] of gopacket:
    [fmt.Sprintf("IPv4Option(%v:%v)", i.OptionType, i.OptionData)]. *)
Definition IPv4Option_String (i : IPv4Option) : string :=
  String.append "IPv4Option("
    (String.append (fmt_uint (OptionType i))
       (String.append ":" (String.append (fmt_bytes (OptionData i)) ")"))).

(** The loop over [decoded]. *)
Definition found_layers (decoded : list LayerType) : bool * bool :=
  fold_left (fun (found : bool * bool) layerType =>
               match layerType with
               | LayerTypeUDP => (true, snd found)
               | LayerTypeIPv4 => (fst found, true)
               | _ => found
               end) decoded (false, false).

(** The loop over [ip4.Options]. *)
Definition collect_options (options : list IPv4Option) : list byte :=
  fold_left (fun ip_options o => ip_options ++ bytes_of_string (IPv4Option_String o))
            options [].

(** build a new IPv4 Header *)
Definition build_header (lib : Lib) (l : Listen) (ip4 : IPv4) : Header :=
  mkHeader 4
           (IHL ip4 * 4)          (* expects bytes, not words like the IPv4 header uses *)
           (ip_TOS ip4)
           (Length ip4)
           (Id ip4)
           0
           (FragOffset ip4)
           (ip_TTL ip4)           (* copy, don't decrement *)
           17
           0
           (To4 (SrcIP ip4))
           (To4 (ParseIP lib (ipaddr l)))
           (collect_options (ip_Options ip4)).

(** The parser the switch on the link type builds; none for the default. *)
Definition parser_for (linkType : LinkType) : option Parser :=
  if Z.eqb linkType LinkTypeNull then
    Some (NewDecodingLayerParser LayerTypeLoopback
            [LayerTypeLoopback; LayerTypeIPv4; LayerTypeUDP; LayerTypePayload])
  else if Z.eqb linkType LinkTypeLoop then
    Some (NewDecodingLayerParser LayerTypeLoopback
            [LayerTypeLoopback; LayerTypeIPv4; LayerTypeUDP; LayerTypePayload])
  else if Z.eqb linkType LinkTypeEthernet then
    Some (NewDecodingLayerParser LayerTypeEthernet
            [LayerTypeEthernet; LayerTypeIPv4; LayerTypeUDP; LayerTypePayload])
  else None.

Definition write (wr : Write) : M unit :=
  fun w => Ret tt (set_wire (fun ws => ws ++ [wr]) w).

Definition stop {A : Type} (h : Halt) : M A := fun w => Stop h w.

(** Does the heavy lifting of editing & sending the packet onwards *)
Definition sendPacket (lib : Lib) (l : Listen) (sndpkt : Send) : M unit :=
  Debugf (MsgProcessing (srcif sndpkt) (iface l));;
  match parser_for (linkType sndpkt) with
  | None => Fatalf (MsgUnsupportedLinkType (linkType sndpkt))
  | Some parser =>
      (* try decoding our packet *)
      match DecodeLayers lib parser (Data (packet sndpkt)) with
      | inr err => Warnf (MsgUnableToDecode (srcif sndpkt) err)
      | inl d =>
          (* packet was decoded *)
          let '(found_udp, found_ipv4) := found_layers (decoded d) in
          if negb found_udp || negb found_ipv4
          then Warnf (MsgNotIPv4UDP (srcif sndpkt))
          else
            let h := build_header lib l (ip4 d) in
            Debugf (MsgHeader h);;
            match raw l with
            | None => stop NilDeref
            | Some rc =>
                match SetControlMessage_err rc with
                | Some err => Fatalf (MsgControlMessage err)
                | None =>
                    write (mkWrite (iface l) (srcif sndpkt) h (payload d) (WriteTo_err rc));;
                    match WriteTo_err rc with
                    | Some err => Errorf (MsgUnableToSend (iface l) err)
                    | None => pure tt
                    end
                end
            end
      end
  end.

(** ** The decoders of gopacket

    The decoding the parser of [sendPacket] performs, after the
    [DecodeFromBytes] methods of gopacket's layers and the loop of its
    [DecodingLayerParser]. The tables from protocol numbers to layer types
    are parameters. The statements about [sendPacket] hold for every [Lib];
    this one serves to run the program on frames. *)

Record Tables : Type := mkTables {
  EthernetType_LayerType : Z -> LayerType;
  ProtocolFamily_LayerType : Z -> LayerType;
  IPProtocol_LayerType : Z -> LayerType;
  UDPPort_LayerType : Z -> LayerType
}.

Definition byte_at (data : list byte) (i : nat) : Z := b2z (nth i data x00).
Definition be16 (data : list byte) (i : nat) : Z :=
  byte_at data i * 256 + byte_at data (S i).
Definition be32 (data : list byte) : Z :=
  ((byte_at data 0 * 256 + byte_at data 1) * 256 + byte_at data 2) * 256 + byte_at data 3.
Definition le32 (data : list byte) : Z :=
  ((byte_at data 3 * 256 + byte_at data 2) * 256 + byte_at data 1) * 256 + byte_at data 0.

Definition zero_IPv4 : IPv4 := mkIPv4 0 0 0 0 0 0 0 0 0 0 [] [] [] [].

(** [Ethernet.DecodeFromBytes]: next layer type and payload. *)
Definition decode_Ethernet (t : Tables) (data : list byte) : (LayerType * list byte) + string :=
  if Nat.ltb (length data) 14 then inr "Ethernet packet too small"
  else
    let EthernetType := be16 data 12 in
    let payload := skipn 14 data in
    if EthernetType <? 1536 then
      (* an 802.3 length: the payload is an LLC frame of that length *)
      inl (EthernetType_LayerType t 0, firstn (Z.to_nat EthernetType) payload)
    else inl (EthernetType_LayerType t EthernetType, payload).

(** [Loopback.DecodeFromBytes] *)
Definition decode_Loopback (t : Tables) (data : list byte) : (LayerType * list byte) + string :=
  if Nat.ltb (length data) 4 then inr "Loopback packet too small"
  else
    let prot := if (byte_at data 0 =? 0) && (byte_at data 1 =? 0)
                then be32 data else le32 data in
    if 255 <? prot then inr "Invalid loopback protocol"
    else inl (ProtocolFamily_LayerType t prot, skipn 4 data).

(** The loop of [IPv4.DecodeFromBytes] that pulls out the options; [data] is
    what follows the 20 fixed bytes of the header. The result is the options
    and the padding. *)
Fixpoint decode_options (fuel : nat) (data : list byte) (options : list IPv4Option)
    : (list IPv4Option * list byte) + string :=
  match fuel with
  | O => inl (options, [])
  | S fuel' =>
      match data with
      | [] => inl (options, [])
      | ty :: rest =>
          if b2z ty =? 0 then           (* End of options *)
            inl (options ++ [mkIPv4Option 0 1 []], rest)
          else if b2z ty =? 1 then      (* 1 byte padding *)
            decode_options fuel' rest (options ++ [mkIPv4Option 1 1 []])
          else
            match rest with
            | [] => inr "Invalid ip4 option length. Length 1 less than 2"
            | len :: _ =>
                if Z.of_nat (length data) <? b2z len then
                  inr "IP option length exceeds remaining IP header size"
                else if b2z len <=? 2 then
                  inr "Invalid IP option length. Must be greater than 2"
                else
                  decode_options fuel' (skipn (Z.to_nat (b2z len)) data)
                    (options ++ [mkIPv4Option (b2z ty) (b2z len)
                                   (skipn 2 (firstn (Z.to_nat (b2z len)) data))])
            end
      end
  end.

(** [IPv4.DecodeFromBytes] and [IPv4.NextLayerType] *)
Definition decode_IPv4 (t : Tables) (data : list byte)
    : (LayerType * list byte * IPv4) + string :=
  if Nat.ltb (length data) 20 then inr "Invalid ip4 header. Length less than 20"
  else
    let flagsfrags := be16 data 6 in
    let ihl := Z.land (byte_at data 0) 15 in
    let len0 := be16 data 2 in
    let len := if len0 =? 0 then Z.of_nat (length data) mod 65536 else len0 in
    if len <? 20 then inr "Invalid (too small) IP length"
    else if ihl <? 5 then inr "Invalid (too small) IP header length"
    else if len <? ihl * 4 then inr "Invalid IP header length > IP length"
    else
      let data' := if len <? Z.of_nat (length data) then firstn (Z.to_nat len) data else data in
      if (Z.of_nat (length data) <? len) && (Z.of_nat (length data) <? ihl * 4)
      then inr "Not all IP header bytes available"
      else
        let hdr := firstn (Z.to_nat (ihl * 4)) data' in
        match decode_options (length hdr) (skipn 20 hdr) [] with
        | inr err => inr err
        | inl (options, padding) =>
            let ip := mkIPv4 (Z.shiftr (byte_at data 0) 4) ihl (byte_at data 1) len
                        (be16 data 4) (Z.shiftr flagsfrags 13) (Z.land flagsfrags 8191)
                        (byte_at data 8) (byte_at data 9) (be16 data 10)
                        (firstn 4 (skipn 12 data)) (firstn 4 (skipn 16 data))
                        options padding in
            let next := if negb (Z.land (ip_Flags ip) 1 =? 0) || negb (FragOffset ip =? 0)
                        then LayerTypeFragment
                        else IPProtocol_LayerType t (ip_Protocol ip) in
            inl (next, skipn (Z.to_nat (ihl * 4)) data', ip)
        end.

(** [UDP.DecodeFromBytes] and [UDP.NextLayerType] *)
Definition decode_UDP (t : Tables) (data : list byte) : (LayerType * list byte) + string :=
  if Nat.ltb (length data) 8 then inr "Invalid UDP header. Length less than 8"
  else
    let sport := be16 data 0 in
    let dport := be16 data 2 in
    let len := be16 data 4 in
    let next := match UDPPort_LayerType t dport with
                | LayerTypePayload => UDPPort_LayerType t sport
                | lt => lt
                end in
    if 8 <=? len then
      let hlen := Nat.min (Z.to_nat len) (length data) in
      inl (next, skipn 8 (firstn hlen data))
    else if len =? 0 then inl (next, skipn 8 data)   (* jumbogram *)
    else inr "UDP packet too small".

(** One turn of the loop: decode the layer of type [typ] into the layer
    variables, answer the type of the next layer and its bytes. *)
Definition decode_layer (t : Tables) (typ : LayerType) (data : list byte) (st : Decoded)
    : (LayerType * list byte * Decoded) + string :=
  match typ with
  | LayerTypeEthernet =>
      match decode_Ethernet t data with
      | inl (next, rest) => inl (next, rest, st)
      | inr err => inr err
      end
  | LayerTypeLoopback =>
      match decode_Loopback t data with
      | inl (next, rest) => inl (next, rest, st)
      | inr err => inr err
      end
  | LayerTypeIPv4 =>
      match decode_IPv4 t data with
      | inl (next, rest, ip) => inl (next, rest, mkDecoded (decoded st) ip (payload st))
      | inr err => inr err
      end
  | LayerTypeUDP =>
      match decode_UDP t data with
      | inl (next, rest) => inl (next, rest, st)
      | inr err => inr err
      end
  | LayerTypePayload => inl (LayerTypeZero, [], mkDecoded (decoded st) (ip4 st) data)
  | _ => inr "no decoder"
  end.

Definition has_decoder (decoders : list LayerType) (typ : LayerType) : bool :=
  existsb (fun d => bool_decide (d = typ)) decoders.

(** The loop of the parser: it ends when a layer leaves no bytes, or at a
    layer type without decoder, which it answers. *)
Fixpoint decode_loop (fuel : nat) (t : Tables) (decoders : list LayerType)
    (typ : LayerType) (data : list byte) (st : Decoded) : (LayerType * Decoded) + string :=
  match fuel with
  | O => inl (LayerTypeZero, st)
  | S fuel' =>
      match decode_layer t typ data st with
      | inr err => inr err
      | inl (next, rest, st') =>
          let st'' := mkDecoded (decoded st' ++ [typ]) (ip4 st') (payload st') in
          if Nat.eqb (length rest) 0 then inl (LayerTypeZero, st'')
          else if has_decoder decoders next
               then decode_loop fuel' t decoders next rest st''
               else inl (next, st'')
      end
  end.

(** [DecodingLayerParser.DecodeLayers] *)
Definition gopacket_DecodeLayers (t : Tables) (parser : Parser) (data : list byte)
    : Decoded + string :=
  if negb (has_decoder (parser_decoders parser) (parser_first parser))
  then inr "No decoder for layer type"
  else
    match decode_loop (S (length data)) t (parser_decoders parser) (parser_first parser)
            data (mkDecoded [] zero_IPv4 []) with
    | inr err => inr err
    | inl (LayerTypeZero, st) => inl st
    | inl (_, st) => inr "No decoder for layer type"
    end.

(** The wire form of an option, the inverse of [decode_options]: the type
    alone for the two one-byte options, else type, length and data. *)
Definition z2byte (n : Z) : byte :=
  match Byte.of_N (Z.to_N n) with
  | Some b => b
  | None => x00
  end.

Definition option_wire (o : IPv4Option) : list byte :=
  if (OptionType o =? 0) || (OptionType o =? 1) then [z2byte (OptionType o)]
  else z2byte (OptionType o) :: z2byte (OptionLength o) :: OptionData o.

Definition options_wire (options : list IPv4Option) : list byte :=
  flat_map option_wire options.

(** ** net.ParseIP on dotted-quad text *)

Definition digit_of (c : ascii) : option Z :=
  let n := Z.of_N (N_of_ascii c) in
  if (48 <=? n) && (n <=? 57) then Some (n - 48) else None.

(** [dtoi] run over a whole field: the value of a string of digits, nothing
    for any other string or a value that reaches [0xFFFFFF]. *)
Fixpoint dtoi (s : string) (n : Z) : option Z :=
  match s with
  | EmptyString => Some n
  | String c rest =>
      match digit_of c with
      | Some d => let n' := n * 10 + d in
                  if 16777215 <=? n' then None else dtoi rest n'
      | None => None
      end
  end.

Definition parse_octet (s : string) : option byte :=
  match s with
  | EmptyString => None
  | String c rest =>
      match dtoi s 0 with
      | Some n =>
          if 255 <? n then None
          else if negb (Nat.eqb (String.length rest) 0) && Ascii.eqb c "0" then None
          else Some (z2byte n)
      | None => None
      end
  end.

(** [net.IPv4(a, b, c, d)]: the 16-byte form. *)
Definition net_IPv4 (a b c d : byte) : list byte :=
  [x00; x00; x00; x00; x00; x00; x00; x00; x00; x00; xff; xff; a; b; c; d].

(** [parseIPv4]: four decimal fields of at most 255, without leading zero,
    separated by dots; nil for anything else. This is what [net.ParseIP]
    answers on a text whose first separator is a dot; the examples use it
    for [ParseIP]. *)
Definition parseIPv4 (s : string) : list byte :=
  match Split s "." with
  | [a; b; c; d] =>
      match parse_octet a, parse_octet b, parse_octet c, parse_octet d with
      | Some a, Some b, Some c, Some d => net_IPv4 a b c d
      | _, _, _, _ => []
      end
  | _ => []
  end.

(** ** Frames to run the examples on *)

Definition example_tables : Tables :=
  mkTables (fun ty => if ty =? 2048 then LayerTypeIPv4 else LayerTypeOther ty)
           (fun fam => if fam =? 2 then LayerTypeIPv4 else LayerTypeOther fam)
           (fun proto => if proto =? 17 then LayerTypeUDP else LayerTypeOther proto)
           (fun port => if port =? 53 then LayerTypeOther 53 else LayerTypePayload).

Definition example_lib : Lib := mkLib (gopacket_DecodeLayers example_tables) parseIPv4.

Definition ethernet_header : list byte :=
  [xff; xff; xff; xff; xff; xff; x00; x11; x22; x33; x44; x55; x08; x00].

(** UDP from 192.168.1.50:12345 to 192.168.1.255:9999, payload "ping". *)
Definition udp_segment : list byte :=
  [x30; x39; x27; x0f; x00; x0c; x00; x00; x70; x69; x6e; x67].

(** A broadcast datagram with TTL 64 and the don't-fragment flag. *)
Definition frame_plain : list byte :=
  ethernet_header ++
  [x45; x00; x00; x20; x12; x34; x40; x00; x40; x11; x00; x00;
   xc0; xa8; x01; x32; xc0; xa8; x01; xff] ++ udp_segment.

(** The same datagram with a router-alert option (type 148, length 4). *)
Definition router_alert : list byte := [x94; x04; x00; x00].

Definition frame_options : list byte :=
  ethernet_header ++
  [x46; x00; x00; x24; x12; x34; x00; x00; x40; x11; x00; x00;
   xc0; xa8; x01; x32; xc0; xa8; x01; xff] ++ router_alert ++ udp_segment.

(** An Ethernet frame that ends with its IPv4 header: protocol 17, no bytes
    after the header. *)
Definition frame_no_udp : list byte :=
  ethernet_header ++
  [x45; x00; x00; x14; x12; x34; x00; x00; x40; x11; x00; x00;
   xc0; xa8; x01; x32; xc0; xa8; x01; xff].

Definition captured (data : list byte) : Packet :=
  mkPacket data (Some LayerTypeIPv4) (Some LayerTypeUDP) None.

Definition eth1 : Listen :=
  mkListen "eth1" "udp" [9999] "192.168.2.255" false
           (Some (mkHandle LinkTypeEthernet)) (Some (mkRawConn None None)) 250 1.

(** ** Vocabulary of the statements about the rewrite path *)

(** The end of [sendPacket], once the header is built: the header is logged,
    the socket is told which fields the caller controls, and the header and
    the payload are written to it. *)
Definition handoff (l : Listen) (src : string) (h : Header) (p : list byte) : M unit :=
  Debugf (MsgHeader h);;
  match raw l with
  | None => stop NilDeref
  | Some rc =>
      match SetControlMessage_err rc with
      | Some err => Fatalf (MsgControlMessage err)
      | None =>
          write (mkWrite (iface l) src h p (WriteTo_err rc));;
          match WriteTo_err rc with
          | Some err => Errorf (MsgUnableToSend (iface l) err)
          | None => pure tt
          end
      end
  end.

(** The parser of the Ethernet case and the messages of the examples. *)
Definition ethernet_parser : Parser :=
  NewDecodingLayerParser LayerTypeEthernet
    [LayerTypeEthernet; LayerTypeIPv4; LayerTypeUDP; LayerTypePayload].

(** What [frame_plain] decodes to. *)
Definition decoded_plain : Decoded :=
  mkDecoded [LayerTypeEthernet; LayerTypeIPv4; LayerTypeUDP; LayerTypePayload]
            (mkIPv4 4 5 0 32 4660 2 0 64 17 0
                    [xc0; xa8; x01; x32] [xc0; xa8; x01; xff] [] [])
            [x70; x69; x6e; x67].

(** What [frame_options] decodes to. *)
Definition decoded_options : Decoded :=
  mkDecoded [LayerTypeEthernet; LayerTypeIPv4; LayerTypeUDP; LayerTypePayload]
            (mkIPv4 4 6 0 36 4660 0 0 64 17 0
                    [xc0; xa8; x01; x32] [xc0; xa8; x01; xff]
                    [mkIPv4Option 148 4 [x00; x00]] [])
            [x70; x69; x6e; x67].

(** What [frame_no_udp] decodes to: the parser stops without error after the
    IPv4 layer, which leaves no bytes. *)
Definition decoded_no_udp : Decoded :=
  mkDecoded [LayerTypeEthernet; LayerTypeIPv4]
            (mkIPv4 4 5 0 20 4660 0 0 64 17 0
                    [xc0; xa8; x01; x32] [xc0; xa8; x01; xff] [] [])
            [].

Definition from_eth0 (data : list byte) : Send :=
  mkSend (captured data) "eth0" LinkTypeEthernet.

(** ** The Distributor (SendPktFeed) *)

(** Modelled from the spec: [SendPktFeed.RegisterSender] is declared in
    another file of the package. Section 4.3 of the design: register "adds an
    egress target to the routing table keyed by interface name". *)
Definition RegisterSender (send : nat) (iface : string) : M unit :=
  fun w => Ret tt (set_senders (fun m => <[iface := send]> m) w).

(** A send on a channel: the message joins the end of the buffer; on a full
    channel, or one that was never made, the sender is suspended. *)
Definition enqueue (ch : nat) (m : Send) : M unit := fun w =>
  match chans w !! ch with
  | Some c =>
      if Nat.ltb (length (buf c)) (cap c)
      then Ret tt (set_chans (fun cs => <[ch := mkChan (cap c) (buf c ++ [m])]> cs) w)
      else Stop Blocked w
  | None => Stop Blocked w
  end.

(** Modelled from the spec: the loop of [SendPktFeed.Send], declared in
    another file of the package. Section 4.3 of the design: "for every
    registered interface name other than message.sourceInterface, enqueue
    message onto that target's queue". *)
Fixpoint broadcast (targets : list (string * nat)) (m : Send) : M unit :=
  match targets with
  | [] => pure tt
  | (thisif, send) :: rest =>
      if String.eqb thisif (srcif m) then broadcast rest m
      else enqueue send m;; broadcast rest m
  end.

(** Modelled from the spec: [SendPktFeed.Send], declared in another file of
    the package; the broadcast of section 4.3 over the routing table. *)
Definition SendPktFeed_Send (p : Packet) (srcif : string) (linkType : LinkType) : M unit :=
  targets ← gets (fun w => map_to_list (senders w));
  broadcast targets (mkSend p srcif linkType).

(** ** The loop of an interface (handlePackets) *)

(** What the select of the loop can react to: a message in the channel of
    the interface, a packet from libpcap, the ticker. *)
Inductive Event : Type :=
  | EvSendpkt
  | EvPacket (packet : Packet)
  | EvTicker.

(** A receive on a channel that holds a message. On an empty channel the
    case of the select is not ready and nothing is received. *)
Definition receive (ch : nat) : M (option Send) := fun w =>
  match chans w !! ch with
  | Some c =>
      match buf c with
      | s :: rest => Ret (Some s) (set_chans (fun cs => <[ch := mkChan (cap c) rest]> cs) w)
      | [] => Ret None w
      end
  | None => Ret None w
  end.

(** is it legit? *)
Definition invalid_packet (packet : Packet) : bool :=
  match NetworkLayer packet, TransportLayer packet with
  | None, _ => true
  | _, None => true
  | Some _, Some ty => negb (bool_decide (ty = LayerTypeUDP))
  end.

(** One turn of the loop of [handlePackets]; [h] is the capture handle. *)
Definition handlePackets_select (lib : Lib) (l : Listen) (h : Handle) (ev : Event) : M unit :=
  match ev with
  | EvSendpkt =>                      (* packet arrived from another interface *)
      s ← receive (sendpkt l);
      match s with
      | Some s => sendPacket lib l s
      | None => pure tt
      end
  | EvPacket packet =>                (* packet arrived on this interfaces *)
      if invalid_packet packet then Warnf (MsgInvalidPacket (iface l))
      else
        match ErrorLayer packet with
        | Some errx => Errorf (MsgErrorLayer (iface l) errx)
        | None => pure tt
        end;;
        Debugf (MsgForwarding (iface l));;
        SendPktFeed_Send packet (iface l) (handle_LinkType h)
  | EvTicker =>                       (* our timer *)
      Debugf (MsgTicker (iface l))
  end.

Fixpoint handlePackets_loop (lib : Lib) (l : Listen) (h : Handle) (evs : list Event) : M unit :=
  match evs with
  | [] => pure tt
  | ev :: rest => handlePackets_select lib l h ev;; handlePackets_loop lib l h rest
  end.

(** Our goroutine for processing packets, run on the events [evs]: the loop
    itself never ends. *)
Definition handlePackets (lib : Lib) (l : Listen) (evs : list Event) : M unit :=
  (* add ourself as a sender *)
  RegisterSender (sendpkt l) (iface l);;
  (* get packets from libpcap *)
  match handle l with
  | None => stop NilDeref
  | Some h => handlePackets_loop lib l h evs
  end.

(** ** The goroutines together

    The goroutines of the interfaces take turns: one registers itself, or
    one makes one turn of its loop. The table of the Distributor is behind a
    lock, a channel operation is atomic, and a raw socket belongs to one
    goroutine, so a turn is taken as a whole. *)
Inductive Action : Type :=
  | Start (l : Listen)
  | Select (l : Listen) (ev : Event).


Definition act (lib : Lib) (a : Action) : M unit :=
  match a with
  | Start l => RegisterSender (sendpkt l) (iface l)
  | Select l ev =>
      match handle l with
      | None => stop NilDeref
      | Some h => handlePackets_select lib l h ev
      end
  end.

Fixpoint run (lib : Lib) (acts : list Action) : M unit :=
  match acts with
  | [] => pure tt
  | a :: rest => act lib a;; run lib rest
  end.

(** The world a computation ends in, returned or stopped. *)
Definition outcome {A : Type} (r : Res A) : World :=
  match r with
  | Ret _ w => w
  | Stop _ w => w
  end.

(** ** Vocabulary of the statements about the relay *)

(** The channel exists and its buffer is not full. *)
Definition has_room (w : World) (ch : nat) : bool :=
  match chans w !! ch with
  | Some c => Nat.ltb (length (buf c)) (cap c)
  | None => false
  end.

(** From [w] to [w'] the message joined the end of the buffer of [ch]. *)
Definition delivered (w w' : World) (ch : nat) (m : Send) : Prop :=
  exists c, chans w !! ch = Some c
            /\ chans w' !! ch = Some (mkChan (cap c) (buf c ++ [m])).

(** Nothing but the channels differs. *)
Definition same_but_chans (w w' : World) : Prop :=
  wlog w' = wlog w /\ senders w' = senders w /\ wire w' = wire w
  /\ Interfaces w' = Interfaces w /\ calls w' = calls w.


(** What holds of the world whatever the goroutines of the listeners [L] do:
    no channel of a listener holds a message that came from the interface of
    that listener; every channel in the table of the Distributor is the
    channel of a listener, under the name of that listener; no datagram was
    written on the interface its message came from. *)
Definition Inv (L : list Listen) (w : World) : Prop :=
  (forall l c m, In l L -> chans w !! sendpkt l = Some c -> In m (buf c) ->
                 srcif m <> iface l)
  /\ (forall n ch, senders w !! n = Some ch ->
                   (exists l, In l L /\ sendpkt l = ch)
                   /\ (forall l, In l L -> sendpkt l = ch -> iface l = n))
  /\ (forall wr, In wr (wire w) -> w_srcif wr <> w_iface wr).



(** ** A relay with two legs, for the examples *)

Definition example_config : list string := ["eth0@192.168.1.255"; "eth1@192.168.2.255"].

Definition example_start : Res (list Listen) :=
  startup example_sys example_config false "udp" [9999] 250 world0.


Definition example_world : World := outcome example_start.

Definition eth0 : Listen :=
  mkListen "eth0" "udp" [9999] "192.168.1.255" false
           (Some (mkHandle LinkTypeEthernet)) (Some (mkRawConn None None)) 250 0.

(** Both goroutines start, a packet is captured on eth0, eth1 takes it from
    its channel and rewrites it, the ticker of eth0 fires. *)
Definition example_actions : list Action :=
  [Start eth0; Start eth1; Select eth0 (EvPacket (captured frame_plain));
   Select eth1 EvSendpkt; Select eth0 EvSendpkt; Select eth0 EvTicker].

(** A captured packet whose decoding left an error layer. *)
Definition damaged (data : list byte) : Packet :=
  mkPacket data (Some LayerTypeIPv4) (Some LayerTypeUDP) (Some "truncated").

(** The world after both goroutines registered. *)
Definition world_registered : World :=
  mkWorld [] [mkChan SendBufferSize []; mkChan SendBufferSize []]
          (<["eth0" := 0%nat]> (<["eth1" := 1%nat]> ∅)) [] ∅ [].

(** ** More frames, listeners and hosts for the examples *)

(** An ARP frame: the parser of [sendPacket] has no decoder for its payload. *)
Definition frame_arp : list byte :=
  [xff; xff; xff; xff; xff; xff; x00; x11; x22; x33; x44; x55; x08; x06;
   x00; x01; x08; x00; x06; x04; x00; x01].

(** eth1 with a socket that refuses the control message. *)
Definition eth1_refusing : Listen :=
  mkListen "eth1" "udp" [9999] "192.168.2.255" false
           (Some (mkHandle LinkTypeEthernet))
           (Some (mkRawConn (Some "use of closed network connection") None)) 250 1.

(** eth1 with a socket that takes the control message and fails the write. *)
Definition eth1_failing : Listen :=
  mkListen "eth1" "udp" [9999] "192.168.2.255" false
           (Some (mkHandle LinkTypeEthernet))
           (Some (mkRawConn None (Some "network is unreachable"))) 250 1.

(** A captured TCP segment. *)
Definition captured_tcp (data : list byte) : Packet :=
  mkPacket data (Some LayerTypeIPv4) (Some (LayerTypeOther 44)) None.

(** ** Vocabulary of the statements about interfaces.go *)

(** The loop of [getConfiguredInterfaces] over what libpcap found. *)
Definition populate (ifs : list Interface) (m : gmap string Interface)
    : gmap string Interface :=
  fold_left (fun m i =>
               if Nat.eqb (length (Addresses i)) 0 then m else <[Name i := i]> m) ifs m.

(** The registry after [getConfiguredInterfaces], and the call it made. *)
Definition registry (os : Sys) (w : World) : gmap string Interface :=
  if Nat.eqb (size (Interfaces w)) 0
  then match FindAllDevs os with
       | inl ifs => populate ifs (Interfaces w)
       | inr _ => Interfaces w
       end
  else Interfaces w.

Definition enumeration (w : World) : list Call :=
  if Nat.eqb (size (Interfaces w)) 0 then [CallFindAllDevs] else [].

(** The enumeration can be had: the registry is filled already, or libpcap
    answers a list. *)
Definition can_enumerate (os : Sys) (w : World) : Prop :=
  size (Interfaces w) <> 0%nat \/ exists ifs, FindAllDevs os = inl ifs.

(** The calls of [initalizeInterface] for the capture handle, and those for
    the socket on address [addr], the three deferred ones last. *)
Definition handle_calls (l : Listen) : list Call :=
  [CallNewInactiveHandle (iface l); CallSetTimeout (iface l) (timeout l);
   CallSetPromisc (iface l) (promisc l); CallSetSnapLen (iface l) 9000;
   CallActivate (iface l); CallSetBPFFilter (iface l) (filter l);
   CallSetDirectionIn (iface l)].

Definition socket_calls (l : Listen) (addr : string) : list Call :=
  [CallListenPacket "ip:udp" addr; CallNewPacketConn addr; CallNewRawConn addr;
   CallClosePacketConn addr; CallCloseConn addr; CallCleanUp (iface l)].

(** The capture handle can be opened and set up for [l]. *)
Definition handle_opens (os : Sys) (l : Listen) (h : Handle) : Prop :=
  NewInactiveHandle os (iface l) = None
  /\ SetTimeout os (iface l) (timeout l) = None
  /\ SetPromisc os (iface l) (promisc l) = None
  /\ SetSnapLen os (iface l) 9000 = None
  /\ Activate os (iface l) = inl h
  /\ SetBPFFilter os (iface l) (filter l) = None
  /\ SetDirection os (iface l) = None.

(** Listeners as [processListener] leaves them, and a host whose tunnel
    interface has an IPv6 address only. *)
Definition eth0_config : Listen :=
  mkListen "eth0" "udp" [9999] "192.168.1.255" false None None 250 0.

Definition eth9_config : Listen :=
  mkListen "eth9" "udp" [9999] "192.168.9.255" false None None 250 0.

Definition tun0_config : Listen :=
  mkListen "tun0" "udp" [9999] "10.8.0.255" false None None 250 0.

Definition tunnel_sys : Sys :=
  mkSys (inl [mkInterface "tun0"
                [mkInterfaceAddress [xfe; x80; x00; x00; x00; x00; x00; x00;
                                     x00; x00; x00; x00; x00; x00; x00; x01] [] [] []]])
        (fun _ => None) (fun _ _ => None) (fun _ _ => None) (fun _ _ => None)
        (fun _ => inl (mkHandle LinkTypeNull))
        (fun _ _ => None) (fun _ => None) (fun _ _ => None)
        (fun _ => inl (mkRawConn None None))
        (fun addr => addr).

(** A host on which libpcap finds interfaces without any address. *)
Definition bare_sys : Sys :=
  mkSys (inl [mkInterface "eth0" []; mkInterface "eth1" []])
        (fun _ => None) (fun _ _ => None) (fun _ _ => None) (fun _ _ => None)
        (fun _ => inl (mkHandle LinkTypeEthernet))
        (fun _ _ => None) (fun _ => None) (fun _ _ => None)
        (fun _ => inl (mkRawConn None None))
        (fun addr => addr).

(** A host on which the enumeration fails, and a listener configured with an
    empty destination. *)
Definition failing_sys : Sys :=
  mkSys (inr "permission denied")
        (fun _ => None) (fun _ _ => None) (fun _ _ => None) (fun _ _ => None)
        (fun _ => inl (mkHandle LinkTypeEthernet))
        (fun _ _ => None) (fun _ => None) (fun _ _ => None)
        (fun _ => inl (mkRawConn None None))
        (fun addr => addr).

Definition eth1_no_destination : Listen :=
  mkListen "eth1" "udp" [9999] "" false
           (Some (mkHandle LinkTypeEthernet)) (Some (mkRawConn None None)) 250 1.

(** An interface with an IPv6 address before its IPv4 address. *)
Definition dual_stack : list InterfaceAddress :=
  [mkInterfaceAddress [xfe; x80; x00; x00; x00; x00; x00; x00;
                       x00; x00; x00; x00; x00; x00; x00; x01] [] [] [];
   mkInterfaceAddress [x0a; x00; x00; x01] [xff; x00; x00; x00] [x0a; xff; xff; xff] [];
   mkInterfaceAddress [x0a; x00; x00; x02] [xff; x00; x00; x00] [x0a; xff; xff; xff] []].

(** * Properties *)

(** ** The monad *)

Lemma bind_Ret {A B : Type} (m : M A) (k : A -> M B) (w w' : World) (a : A) :
  m w = Ret a w' -> bind m k w = k a w'.
Proof. intros H. unfold bind. now rewrite H. Qed.

Lemma bind_Stop {A B : Type} (m : M A) (k : A -> M B) (w w' : World) (h : Halt) :
  m w = Stop h w' -> bind m k w = Stop h w'.
Proof. intros H. unfold bind. now rewrite H. Qed.

Lemma set_chans_set_chans (f g : list Chan -> list Chan) (w : World) :
  set_chans f (set_chans g w) = set_chans (fun cs => f (g cs)) w.
Proof. reflexivity. Qed.

Lemma set_chans_id (w : World) : set_chans (fun cs => cs ++ []) w = w.
Proof. destruct w; unfold set_chans; simpl. now rewrite app_nil_r. Qed.

(** ** strings.Split *)

Lemma Split_nonempty (s : string) (sep : ascii) : Split s sep <> [].
Proof.
  destruct s as [|c s]; simpl; [discriminate|].
  destruct (Ascii.eqb c sep); [discriminate|].
  destruct (Split s sep); discriminate.
Qed.

Lemma Split_length (s : string) (sep : ascii) :
  length (Split s sep) = S (count_byte sep s).
Proof.
  induction s as [|c s IH]; simpl; [reflexivity|].
  destruct (Ascii.eqb c sep); simpl.
  - now rewrite IH.
  - pose proof (Split_nonempty s sep) as Hne.
    destruct (Split s sep) as [|p ps]; [congruence|]. simpl in *. lia.
Qed.

(** No piece contains the separator. *)
Lemma Split_pieces_free (s : string) (sep : ascii) :
  Forall (fun p => count_byte sep p = O) (Split s sep).
Proof.
  induction s as [|c s IH]; simpl.
  - repeat constructor.
  - destruct (Ascii.eqb c sep) eqn:E.
    + constructor; [reflexivity | exact IH].
    + destruct (Split s sep) as [|p ps].
      * repeat constructor. simpl. now rewrite E.
      * inversion IH; subst. constructor; [|assumption].
        simpl. now rewrite E.
  Qed.

Lemma Split_well_formed (i : string) :
  well_formed i -> Split i "@" = [iface_of i; ipaddr_of i].
Proof.
  unfold well_formed, iface_of, ipaddr_of. intros H.
  pose proof (Split_length i "@") as HL. rewrite H in HL.
  destruct (Split i "@") as [|a [|b [|c r]]]; simpl in HL; try discriminate.
  reflexivity.
Qed.

Lemma Split_two_well_formed (i a b : string) :
  Split i "@" = [a; b] -> well_formed i.
Proof.
  intros H. pose proof (Split_length i "@") as HL. rewrite H in HL.
  unfold well_formed. simpl in HL. lia.
Qed.


Lemma iface_of_free (i : string) : count_byte "@" (iface_of i) = O.
Proof.
  unfold iface_of. pose proof (Split_pieces_free i "@") as HF.
  destruct (Split i "@") as [|a r]; simpl; [reflexivity|].
  now inversion HF.
Qed.

(** ** The duplicate check *)

(** A string that starts with [a ++ "@"] contains the separator. *)
Lemma HasPrefix_sep_count (a b : string) :
  HasPrefix b (String.append a "@") = true -> (1 <= count_byte "@" b)%nat.
Proof.
  revert b.
  induction a as [|c a IH]; intros b H; destruct b as [|d b];
    cbn [String.append HasPrefix count_byte] in *; try discriminate.
  - apply andb_prop in H as [H _]. rewrite H. lia.
  - apply andb_prop in H as [_ H]. apply IH in H. lia.
Qed.

(** The check never fires on a slice of names without separator. *)
Lemma stringPrefixInSlice_free (a : string) (slice : list string) :
  Forall (fun b => count_byte "@" b = O) slice ->
  stringPrefixInSlice (String.append a "@") slice = false.
Proof.
  unfold stringPrefixInSlice. induction 1 as [|b slice Hb _ IH]; simpl; [reflexivity|].
  rewrite IH, orb_false_r.
  destruct (HasPrefix b (String.append a "@")) eqn:E; [|reflexivity].
  apply HasPrefix_sep_count in E. lia.
Qed.

(** ** processListener *)

Lemma with_fresh_chans_S (n : nat) (w : World) :
  with_fresh_chans n (set_chans (fun cs => cs ++ [mkChan SendBufferSize []]) w)
  = with_fresh_chans (S n) w.
Proof.
  unfold with_fresh_chans. rewrite set_chans_set_chans.
  destruct w; unfold set_chans; simpl. now rewrite <- app_assoc.
Qed.

Lemma with_fresh_chans_0 (w : World) : with_fresh_chans 0 w = w.
Proof. apply set_chans_id. Qed.

(** On well-formed entries the loop runs to its end, whatever the names are:
    the names collected so far carry no separator, so the duplicate check,
    which looks for the name followed by the separator, finds nothing. *)
Lemma processListener_range_ok (promisc : bool) (bpf_filter : string) (ports : list Z)
    (to : Z) (lp : list string) :
  Forall well_formed lp ->
  forall (interfaces : list string) (ret : list Listen) (w : World),
    Forall (fun b => count_byte "@" b = O) interfaces ->
    processListener_range lp promisc bpf_filter ports to interfaces ret w
    = Ret (interfaces ++ map iface_of lp,
           ret ++ listens_of lp promisc bpf_filter ports to (length (chans w)))
          (with_fresh_chans (length lp) w).
Proof.
  induction 1 as [|i lp Hi _ IH]; intros interfaces ret w Hfree; simpl.
  - unfold pure. now rewrite !app_nil_r, with_fresh_chans_0.
  - rewrite (Split_well_formed i Hi).
    rewrite (stringPrefixInSlice_free _ _ Hfree).
    unfold bind at 1. simpl.
    rewrite IH.
    + rewrite with_fresh_chans_S. f_equal. f_equal.
      * now rewrite <- app_assoc.
      * rewrite <- app_assoc. simpl. do 3 f_equal.
        unfold set_chans; simpl. rewrite length_app. simpl. lia.
    + apply Forall_app. split; [assumption|].
      constructor; [apply iface_of_free | constructor].
Qed.

(** A malformed entry stops the loop with a fatal error; the loop makes no
    call to the operating system. *)
Lemma processListener_range_calls (promisc : bool) (bpf_filter : string) (ports : list Z)
    (to : Z) (lp : list string) :
  forall (interfaces : list string) (ret : list Listen) (w : World),
    match processListener_range lp promisc bpf_filter ports to interfaces ret w with
    | Ret _ w' | Stop _ w' => calls w' = calls w /\ wire w' = wire w
    end.
Proof.
  induction lp as [|i lp IH]; intros interfaces ret w; simpl; [now split|].
  destruct (Split i "@") as [|a [|b [|c r]]]; try (now split).
  destruct (stringPrefixInSlice _ interfaces); [now split|].
  unfold bind at 1. simpl.
  match goal with |- context [processListener_range lp ?p ?f ?po ?t ?i ?r ?w0] =>
    specialize (IH i r w0) end.
  exact IH.
Qed.

Lemma processListener_range_malformed (promisc : bool) (bpf_filter : string)
    (ports : list Z) (to : Z) (lp : list string) :
  Exists (fun i => ~ well_formed i) lp ->
  forall (interfaces : list string) (ret : list Listen) (w : World),
    exists w', processListener_range lp promisc bpf_filter ports to interfaces ret w
               = Stop Fatal w'.
Proof.
  induction lp as [|i lp IH]; intros HE interfaces ret w; [inversion HE|].
  simpl. destruct (Split i "@") as [|a [|b [|c r]]] eqn:ES;
    try (eexists; reflexivity).
  destruct (stringPrefixInSlice _ interfaces); [eexists; reflexivity|].
  unfold bind at 1. simpl. apply IH.
  inversion HE as [? ? Hbad|]; subst; [|assumption].
  exfalso. apply Hbad. eapply Split_two_well_formed; eauto.
Qed.

Lemma fold_left_snoc {A : Type} (l acc : list A) :
  fold_left (fun listeners x => listeners ++ [x]) l acc = acc ++ l.
Proof.
  revert acc. induction l as [|x l IH]; intros acc; simpl.
  - now rewrite app_nil_r.
  - rewrite IH. now rewrite <- app_assoc.
Qed.

Lemma listens_of_length (lp : list string) (promisc : bool) (bpf_filter : string)
    (ports : list Z) (to : Z) (ch : nat) :
  length (listens_of lp promisc bpf_filter ports to ch) = length lp.
Proof. revert ch. induction lp as [|i lp IH]; intros ch; simpl; [reflexivity|]. now rewrite IH. Qed.

Lemma listens_of_iface (lp : list string) (promisc : bool) (bpf_filter : string)
    (ports : list Z) (to : Z) (ch : nat) :
  map iface (listens_of lp promisc bpf_filter ports to ch) = map iface_of lp.
Proof. revert ch. induction lp as [|i lp IH]; intros ch; simpl; [reflexivity|]. now rewrite IH. Qed.


(** [initalizeListeners] on well-formed entries. *)
Lemma initalizeListeners_ok (lp : list string) (promisc : bool) (bpf_filter : string)
    (ports : list Z) (to : Z) (w : World) :
  Forall well_formed lp ->
  initalizeListeners lp promisc bpf_filter ports to w
  = Ret (listens_of lp promisc bpf_filter ports to (length (chans w)))
        (with_fresh_chans (length lp) w).
Proof.
  intros H. unfold initalizeListeners, processListener, bind.
  rewrite (processListener_range_ok _ _ _ _ _ H [] [] w (List.Forall_nil _)).
  simpl. unfold pure. now rewrite fold_left_snoc.
Qed.


(** C8. An entry that does not split on the separator into exactly two parts
    makes configuration processing end in a fatal error; this happens inside
    [initalizeListeners], so start-up as a whole ends there, and no call to
    the operating system was made by then: no capture handle was opened. *)
Theorem malformed_entry_is_fatal (os : Sys) (lp : list string) (promisc : bool)
    (bpf_filter : string) (ports : list Z) (to : Z) (w : World) :
  Exists (fun i => length (Split i "@") <> 2%nat) lp ->
  exists w',
    initalizeListeners lp promisc bpf_filter ports to w = Stop Fatal w'
    /\ startup os lp promisc bpf_filter ports to w = Stop Fatal w'
    /\ calls w' = calls w
    /\ opened_handles w' = opened_handles w.
Proof.
  intros HE.
  assert (HE' : Exists (fun i => ~ well_formed i) lp).
  { induction HE as [i lp Hlen|i lp _ IH]; [left | now right].
    intros Hwf. apply Hlen. now rewrite Split_length, Hwf. }
  destruct (processListener_range_malformed promisc bpf_filter ports to lp HE' [] [] w)
    as [w' Hw'].
  pose proof (processListener_range_calls promisc bpf_filter ports to lp [] [] w) as Hc.
  rewrite Hw' in Hc. destruct Hc as [Hc _].
  exists w'. unfold startup, initalizeListeners, processListener, bind.
  rewrite Hw'. repeat split; try assumption.
  unfold opened_handles. now rewrite Hc.
Qed.

Lemma malformed_entry_is_fatal_witness :
  (exists w', initalizeListeners ["eth0"] false "udp" [9999] 250 world0 = Stop Fatal w'
              /\ startup example_sys ["eth0"] false "udp" [9999] 250 world0 = Stop Fatal w'
              /\ calls w' = calls world0
              /\ opened_handles w' = opened_handles world0)
  /\ (exists w', initalizeListeners ["eth0@192.168.1.255"; "eth1@192.168.2.255@x"]
                   false "udp" [9999] 250 world0 = Stop Fatal w'
              /\ startup example_sys ["eth0@192.168.1.255"; "eth1@192.168.2.255@x"]
                   false "udp" [9999] 250 world0 = Stop Fatal w'
              /\ calls w' = calls world0
              /\ opened_handles w' = opened_handles world0).
Proof.
  split.
  - apply (malformed_entry_is_fatal example_sys ["eth0"]).
    apply Exists_cons_hd. vm_compute. lia.
  - apply (malformed_entry_is_fatal example_sys
             ["eth0@192.168.1.255"; "eth1@192.168.2.255@x"]).
    apply Exists_cons_tl, Exists_cons_hd. vm_compute. lia.
Defined.




(** Two such entries evaluated: a Listen with an empty address and one with
    an empty interface name. *)
Example listen_with_empty_field :
  initalizeListeners ["eth0@"; "@192.168.1.255"] false "udp" [9999] 250 world0
  = Ret [ mkListen "eth0" "udp" [9999] "" false None None 250 0;
          mkListen "" "udp" [9999] "192.168.1.255" false None None 250 1 ]
        (mkWorld [] [mkChan 100 []; mkChan 100 []] ∅ [] ∅ []).
Proof. reflexivity. Qed.



(** The same list evaluated: two Listen values for [eth0], an empty log. *)
Example duplicate_eth0_accepted :
  initalizeListeners ["eth0@192.168.1.255"; "eth0@192.168.2.255"] false "udp" [9999] 250 world0
  = Ret [ mkListen "eth0" "udp" [9999] "192.168.1.255" false None None 250 0;
          mkListen "eth0" "udp" [9999] "192.168.2.255" false None None 250 1 ]
        (mkWorld [] [mkChan 100 []; mkChan 100 []] ∅ [] ∅ []).
Proof. reflexivity. Qed.

(** C4, second half: a list of well-formed entries (with distinct names or
    not) gives as many Listen values as it has entries, in order. *)
Lemma one_listen_per_entry (lp : list string) (promisc : bool) (bpf_filter : string)
    (ports : list Z) (to : Z) (w : World) :
  Forall well_formed lp ->
  exists ls w',
    initalizeListeners lp promisc bpf_filter ports to w = Ret ls w'
    /\ length ls = length lp /\ map iface ls = map iface_of lp.
Proof.
  intros H. eexists _, _. split; [apply initalizeListeners_ok; exact H|].
  split; [apply listens_of_length | apply listens_of_iface].
Qed.

(** ** sendPacket *)

Lemma found_layers_spec (ds : list LayerType) :
  found_layers ds
  = (existsb (fun d => bool_decide (d = LayerTypeUDP)) ds,
     existsb (fun d => bool_decide (d = LayerTypeIPv4)) ds).
Proof.
  unfold found_layers.
  assert (G : forall acc,
    fold_left (fun (found : bool * bool) layerType =>
                 match layerType with
                 | LayerTypeUDP => (true, snd found)
                 | LayerTypeIPv4 => (fst found, true)
                 | _ => found
                 end) ds acc
    = (fst acc || existsb (fun d => bool_decide (d = LayerTypeUDP)) ds,
       snd acc || existsb (fun d => bool_decide (d = LayerTypeIPv4)) ds)).
  { induction ds as [|d ds IH]; intros [u i]; simpl.
    - now rewrite !orb_false_r.
    - rewrite IH. destruct d; simpl; try reflexivity.
      + now rewrite orb_true_r.
      + now rewrite orb_true_r. }
  now rewrite G.
Qed.

Lemma existsb_layer_In (ty : LayerType) (ds : list LayerType) :
  existsb (fun d => bool_decide (d = ty)) ds = true <-> In ty ds.
Proof.
  rewrite existsb_exists. split.
  - intros (d & Hin & Hd). apply bool_decide_eq_true in Hd. now subst.
  - intros Hin. exists ty. split; [assumption|]. now apply bool_decide_eq_true.
Qed.

Lemma found_layers_both (ds : list LayerType) :
  In LayerTypeIPv4 ds -> In LayerTypeUDP ds -> found_layers ds = (true, true).
Proof.
  intros H4 HU. rewrite found_layers_spec.
  apply existsb_layer_In in H4. apply existsb_layer_In in HU. now rewrite H4, HU.
Qed.

Lemma found_layers_missing (ds : list LayerType) :
  ~ In LayerTypeIPv4 ds \/ ~ In LayerTypeUDP ds ->
  negb (fst (found_layers ds)) || negb (snd (found_layers ds)) = true.
Proof.
  intros H. rewrite found_layers_spec. simpl.
  destruct (existsb (fun d => bool_decide (d = LayerTypeUDP)) ds) eqn:EU;
  destruct (existsb (fun d => bool_decide (d = LayerTypeIPv4)) ds) eqn:E4;
    try reflexivity.
  apply existsb_layer_In in EU. apply existsb_layer_In in E4. tauto.
Qed.

(** The supported link types are those the switch has a case for. *)
Lemma parser_for_valid (lt : LinkType) :
  isValidLayerType lt = true <-> exists parser, parser_for lt = Some parser.
Proof.
  unfold isValidLayerType, validLinkTypes, parser_for. cbn [existsb].
  destruct (Z.eqb_spec lt LinkTypeNull) as [->|H0];
    [split; [eexists|]; reflexivity|].
  destruct (Z.eqb_spec lt LinkTypeLoop) as [->|H1];
    [split; [eexists|]; reflexivity|].
  destruct (Z.eqb_spec lt LinkTypeEthernet) as [->|H2];
    [split; [eexists|]; reflexivity|].
  apply not_eq_sym, Z.eqb_neq in H0, H1, H2. rewrite H0, H1, H2. simpl.
  split; [discriminate | intros [? ?]; discriminate].
Qed.

Lemma parser_for_invalid (lt : LinkType) :
  isValidLayerType lt = false -> parser_for lt = None.
Proof.
  intros H. destruct (parser_for lt) eqn:E; [|reflexivity].
  assert (isValidLayerType lt = true) by (apply parser_for_valid; eauto). congruence.
Qed.

Lemma To4_4 (ip : list byte) : length ip = 4%nat -> To4 ip = ip.
Proof. intros H. unfold To4. now rewrite H. Qed.

Lemma To4_net_IPv4 (a b c d : byte) : To4 (net_IPv4 a b c d) = [a; b; c; d].
Proof. reflexivity. Qed.

Lemma handoff_writes (l : Listen) (src : string) (h : Header) (p : list byte)
    (rc : RawConn) (w : World) :
  raw l = Some rc -> SetControlMessage_err rc = None ->
  exists w', handoff l src h p w = Ret tt w'
             /\ wire w' = wire w ++ [mkWrite (iface l) src h p (WriteTo_err rc)].
Proof.
  intros HR HC. unfold handoff, bind. simpl. rewrite HR, HC. unfold write. simpl.
  destruct (WriteTo_err rc); eexists; split; reflexivity.
Qed.

(** ** The options of the rewritten header *)

Lemma length_bytes_of_string (s : string) :
  length (bytes_of_string s) = String.length s.
Proof.
  unfold bytes_of_string, list_byte_of_string. rewrite length_map.
  induction s as [|c s IH]; simpl; [reflexivity | now rewrite IH].
Qed.

Lemma String_length_append (s1 s2 : string) :
  String.length (String.append s1 s2) = (String.length s1 + String.length s2)%nat.
Proof.
  induction s1 as [|c s1 IH]; [reflexivity|].
  unfold String.append; fold String.append. simpl. now rewrite IH.
Qed.

(** Between two elements there is a space. *)
Lemma fmt_elems_length (data : list byte) :
  (length data <= S (String.length (fmt_elems data)))%nat.
Proof.
  induction data as [|b [|b' rest] IH]; cbn [fmt_elems length] in *; try lia.
  rewrite String_length_append. cbn [String.length]. lia.
Qed.

(** The text of an option is at least twelve bytes longer than its wire form. *)
Lemma IPv4Option_String_longer (o : IPv4Option) :
  (length (option_wire o) + 12 <= String.length (IPv4Option_String o))%nat.
Proof.
  unfold IPv4Option_String, fmt_bytes. rewrite !String_length_append.
  pose proof (fmt_elems_length (OptionData o)) as HE.
  assert (HW : (length (option_wire o) <= 2 + length (OptionData o))%nat).
  { unfold option_wire. destruct (_ || _); simpl; lia. }
  simpl String.length. lia.
Qed.

Lemma collect_options_flat_map (options : list IPv4Option) :
  collect_options options
  = flat_map (fun o => bytes_of_string (IPv4Option_String o)) options.
Proof.
  unfold collect_options.
  assert (G : forall acc,
            fold_left (fun ip_options o => ip_options ++ bytes_of_string (IPv4Option_String o))
                      options acc
            = acc ++ flat_map (fun o => bytes_of_string (IPv4Option_String o)) options).
  { induction options as [|o options IH]; intros acc; simpl.
    - now rewrite app_nil_r.
    - rewrite IH. now rewrite <- app_assoc. }
  now rewrite G.
Qed.

Lemma collect_options_longer (options : list IPv4Option) :
  (length (options_wire options) + 12 * length options
   <= length (collect_options options))%nat.
Proof.
  rewrite collect_options_flat_map. unfold options_wire.
  induction options as [|o options IH]; cbn [flat_map length]; [lia|].
  rewrite !length_app, length_bytes_of_string.
  pose proof (IPv4Option_String_longer o). lia.
Qed.

(** ** A message that decodes to IPv4 and UDP *)

Section DecodedMessage.

Variable lib : Lib.
Variable l : Listen.
Variable sndpkt : Send.
Variable parser : Parser.
Variable d : Decoded.

Hypothesis parser_built : parser_for (linkType sndpkt) = Some parser.
Hypothesis layers_decoded : DecodeLayers lib parser (Data (packet sndpkt)) = inl d.
Hypothesis has_ipv4 : In LayerTypeIPv4 (decoded d).
Hypothesis has_udp : In LayerTypeUDP (decoded d).

(** The world in which the header is handed over: the first line of
    [sendPacket] is in the log. *)
Let entered (w : World) : World :=
  set_wlog (fun lg => lg ++ [(LDebug, MsgProcessing (srcif sndpkt) (iface l))]) w.

(** The message reaches the hand-off with the header built from the decoded
    one. *)
Lemma sendPacket_decoded (w : World) :
  sendPacket lib l sndpkt w
  = handoff l (srcif sndpkt) (build_header lib l (ip4 d)) (payload d) (entered w).
Proof.
  unfold sendPacket, bind at 1. simpl.
  rewrite parser_built, layers_decoded, (found_layers_both _ has_ipv4 has_udp).
  reflexivity.
Qed.

(** C2. A message that decodes to IPv4 and UDP is handed to the raw socket
    under a header with version 4, the header length in bytes (four times the
    IHL), the total length and the TTL of the decoded header, protocol 17, a
    zero checksum, the source address of the decoded header (its 4-byte
    form, which is the address itself for the four bytes a decoded header
    holds) and, as destination, the address configured for the endpoint (the
    4-byte form of what [ParseIP] makes of the text: [a.b.c.e] for the text
    of an IPv4 address); the bytes written after it are the decoded payload. *)
Theorem rewritten_header (w : World) :
  exists h : Header,
    Version h = 4 /\ Len h = 4 * IHL (ip4 d) /\ TotalLen h = Length (ip4 d)
    /\ TTL h = ip_TTL (ip4 d) /\ Protocol h = 17 /\ Checksum h = 0
    /\ Src h = To4 (SrcIP (ip4 d))
    /\ (length (SrcIP (ip4 d)) = 4%nat -> Src h = SrcIP (ip4 d))
    /\ Dst h = To4 (ParseIP lib (ipaddr l))
    /\ (forall a b c e, ParseIP lib (ipaddr l) = net_IPv4 a b c e -> Dst h = [a; b; c; e])
    /\ sendPacket lib l sndpkt w
       = handoff l (srcif sndpkt) h (payload d)
           (set_wlog (fun lg => lg ++ [(LDebug, MsgProcessing (srcif sndpkt) (iface l))]) w)
    /\ forall rc, raw l = Some rc -> SetControlMessage_err rc = None ->
         exists w', sendPacket lib l sndpkt w = Ret tt w'
                    /\ wire w' = wire w ++ [mkWrite (iface l) (srcif sndpkt) h (payload d)
                                              (WriteTo_err rc)].
Proof.
  exists (build_header lib l (ip4 d)).
  split; [reflexivity|]. split; [simpl; lia|]. do 5 (split; [reflexivity|]).
  split; [intros HS; simpl; now apply To4_4|]. split; [reflexivity|].
  split; [intros a b c e HI; simpl; now rewrite HI|].
  split; [apply sendPacket_decoded|].
  intros rc HR HC. rewrite sendPacket_decoded.
  destruct (handoff_writes l (srcif sndpkt) (build_header lib l (ip4 d)) (payload d) rc
              (entered w) HR HC) as (w' & Hw' & Hwire).
  exists w'. split; [exact Hw'|]. rewrite Hwire. reflexivity.
Qed.

(** C5, as the code has it: the type of service, the identification and the
    fragment offset of the rewritten header are those of the decoded header;
    its flags field is 0 whatever the flags of the decoded header. *)
Theorem header_copies_tos_id_fragoff (w : World) :
  exists h : Header,
    TOS h = ip_TOS (ip4 d) /\ ID h = Id (ip4 d) /\ FragOff h = FragOffset (ip4 d)
    /\ Flags h = 0
    /\ sendPacket lib l sndpkt w
       = handoff l (srcif sndpkt) h (payload d)
           (set_wlog (fun lg => lg ++ [(LDebug, MsgProcessing (srcif sndpkt) (iface l))]) w).
Proof.
  exists (build_header lib l (ip4 d)). repeat split. apply sendPacket_decoded.
Qed.

(** C3, on the code: the options of the rewritten header are never the wire
    bytes of the options of the decoded header. Each option is run through
    its [String] method, the text gopacket prints for it, and the bytes of
    the texts are what the header receives. *)
Theorem options_are_not_wire_bytes (w : World) :
  ip_Options (ip4 d) <> [] ->
  exists h : Header,
    sendPacket lib l sndpkt w
    = handoff l (srcif sndpkt) h (payload d)
        (set_wlog (fun lg => lg ++ [(LDebug, MsgProcessing (srcif sndpkt) (iface l))]) w)
    /\ Options h = flat_map (fun o => bytes_of_string (IPv4Option_String o))
                            (ip_Options (ip4 d))
    /\ Options h <> options_wire (ip_Options (ip4 d)).
Proof.
  intros HO.
  exists (build_header lib l (ip4 d)). split; [|split].
  - apply sendPacket_decoded.
  - apply collect_options_flat_map.
  - simpl. intros E.
    pose proof (collect_options_longer (ip_Options (ip4 d))) as HL.
    rewrite E in HL. destruct (ip_Options (ip4 d)); [congruence|]. simpl in HL. lia.
Qed.

End DecodedMessage.

Lemma rewritten_header_witness :
  exists h : Header,
    Version h = 4 /\ Len h = 4 * IHL (ip4 decoded_plain)
    /\ TotalLen h = Length (ip4 decoded_plain)
    /\ TTL h = ip_TTL (ip4 decoded_plain) /\ Protocol h = 17 /\ Checksum h = 0
    /\ Src h = To4 (SrcIP (ip4 decoded_plain))
    /\ (length (SrcIP (ip4 decoded_plain)) = 4%nat -> Src h = SrcIP (ip4 decoded_plain))
    /\ Dst h = To4 (ParseIP example_lib (ipaddr eth1))
    /\ (forall a b c e, ParseIP example_lib (ipaddr eth1) = net_IPv4 a b c e ->
                        Dst h = [a; b; c; e])
    /\ sendPacket example_lib eth1 (from_eth0 frame_plain) world0
       = handoff eth1 (srcif (from_eth0 frame_plain)) h (payload decoded_plain)
           (set_wlog (fun lg => lg ++ [(LDebug, MsgProcessing (srcif (from_eth0 frame_plain))
                                                  (iface eth1))]) world0)
    /\ forall rc, raw eth1 = Some rc -> SetControlMessage_err rc = None ->
         exists w', sendPacket example_lib eth1 (from_eth0 frame_plain) world0 = Ret tt w'
                    /\ wire w' = wire world0 ++ [mkWrite (iface eth1)
                                                   (srcif (from_eth0 frame_plain)) h
                                                   (payload decoded_plain) (WriteTo_err rc)].
Proof.
  refine (rewritten_header example_lib eth1 (from_eth0 frame_plain) ethernet_parser
            decoded_plain _ _ _ _ world0).
  - reflexivity.
  - vm_compute. reflexivity.
  - simpl. tauto.
  - simpl. tauto.
Defined.

(** The scenario of the design document: a broadcast from 192.168.1.50:12345
    to 192.168.1.255:9999 with TTL 64 captured on eth0 is written once on
    eth1, from 192.168.1.50 to 192.168.2.255 with TTL 64 and the payload. *)
Example scenario_eth0_to_eth1 :
  exists w', sendPacket example_lib eth1 (from_eth0 frame_plain) world0 = Ret tt w'
    /\ wire w' = [mkWrite "eth1" "eth0"
                    (mkHeader 4 20 0 32 4660 0 0 64 17 0
                              [xc0; xa8; x01; x32] [xc0; xa8; x02; xff] [])
                    [x70; x69; x6e; x67] None].
Proof. eexists. split; vm_compute; reflexivity. Qed.

Lemma header_copies_tos_id_fragoff_witness :
  exists h : Header,
    TOS h = ip_TOS (ip4 decoded_plain) /\ ID h = Id (ip4 decoded_plain)
    /\ FragOff h = FragOffset (ip4 decoded_plain) /\ Flags h = 0
    /\ sendPacket example_lib eth1 (from_eth0 frame_plain) world0
       = handoff eth1 (srcif (from_eth0 frame_plain)) h (payload decoded_plain)
           (set_wlog (fun lg => lg ++ [(LDebug, MsgProcessing (srcif (from_eth0 frame_plain))
                                                  (iface eth1))]) world0).
Proof.
  refine (header_copies_tos_id_fragoff example_lib eth1 (from_eth0 frame_plain)
            ethernet_parser decoded_plain _ _ _ _ world0).
  - reflexivity.
  - vm_compute. reflexivity.
  - simpl. tauto.
  - simpl. tauto.
Defined.

(** C5 as stated fails: [frame_plain] carries the don't-fragment flag, the
    decoded header has flags 2, the header written on eth1 has flags 0. *)
Lemma flags_not_copied :
  exists (w' : World) (wr : Write),
    DecodeLayers example_lib ethernet_parser (Data (packet (from_eth0 frame_plain)))
      = inl decoded_plain
    /\ sendPacket example_lib eth1 (from_eth0 frame_plain) world0 = Ret tt w'
    /\ wire w' = [wr]
    /\ ip_Flags (ip4 decoded_plain) = 2
    /\ Flags (w_header wr) = 0
    /\ Flags (w_header wr) <> ip_Flags (ip4 decoded_plain).
Proof.
  eexists _, _. repeat split; try (vm_compute; reflexivity).
  vm_compute. discriminate.
Qed.

Lemma options_are_not_wire_bytes_witness :
  exists h : Header,
    sendPacket example_lib eth1 (from_eth0 frame_options) world0
    = handoff eth1 (srcif (from_eth0 frame_options)) h (payload decoded_options)
        (set_wlog (fun lg => lg ++ [(LDebug, MsgProcessing (srcif (from_eth0 frame_options))
                                               (iface eth1))]) world0)
    /\ Options h = flat_map (fun o => bytes_of_string (IPv4Option_String o))
                            (ip_Options (ip4 decoded_options))
    /\ Options h <> options_wire (ip_Options (ip4 decoded_options)).
Proof.
  refine (options_are_not_wire_bytes example_lib eth1 (from_eth0 frame_options)
            ethernet_parser decoded_options _ _ _ _ world0 _).
  - reflexivity.
  - vm_compute. reflexivity.
  - simpl. tauto.
  - simpl. tauto.
  - discriminate.
Defined.

(** The failing input evaluated: the frame carries the four bytes of a
    router-alert option after the fixed part of its IPv4 header; they decode
    to one option whose wire form is those four bytes; the header written on
    eth1 carries the twenty-one bytes of the text [IPv4Option(148:[0 0])]. *)
Example router_alert_rewritten :
  firstn 4 (skipn 34 frame_options) = router_alert
  /\ DecodeLayers example_lib ethernet_parser frame_options = inl decoded_options
  /\ options_wire (ip_Options (ip4 decoded_options)) = router_alert
  /\ exists (w' : World) (wr : Write),
       sendPacket example_lib eth1 (from_eth0 frame_options) world0 = Ret tt w'
       /\ wire w' = [wr]
       /\ Options (w_header wr) = bytes_of_string "IPv4Option(148:[0 0])"
       /\ Len (w_header wr) = 24.
Proof.
  split; [reflexivity|]. split; [vm_compute; reflexivity|]. split; [reflexivity|].
  eexists _, _. repeat split; vm_compute; reflexivity.
Qed.

(** ** Messages that are given up *)

(** C6. A frame that decodes without error but without an IPv4 layer or
    without a UDP layer is given up with a warning: nothing is written to
    the raw socket and the call returns. *)
Theorem missing_layer_is_dropped (lib : Lib) (l : Listen) (sndpkt : Send)
    (parser : Parser) (d : Decoded) (w : World) :
  parser_for (linkType sndpkt) = Some parser ->
  DecodeLayers lib parser (Data (packet sndpkt)) = inl d ->
  ~ In LayerTypeIPv4 (decoded d) \/ ~ In LayerTypeUDP (decoded d) ->
  exists w',
    sendPacket lib l sndpkt w = Ret tt w'
    /\ wlog w' = wlog w ++ [(LDebug, MsgProcessing (srcif sndpkt) (iface l));
                            (LWarn, MsgNotIPv4UDP (srcif sndpkt))]
    /\ wire w' = wire w /\ chans w' = chans w /\ senders w' = senders w
    /\ calls w' = calls w.
Proof.
  intros HP HD HM. unfold sendPacket, bind at 1. simpl. rewrite HP, HD.
  pose proof (found_layers_missing _ HM) as HF.
  destruct (found_layers (decoded d)) as [u i]. simpl in HF. rewrite HF.
  eexists. split; [reflexivity|]. simpl. rewrite <- app_assoc. repeat split.
Qed.

Lemma missing_layer_is_dropped_witness :
  exists w',
    sendPacket example_lib eth1 (from_eth0 frame_no_udp) world0 = Ret tt w'
    /\ wlog w' = wlog world0 ++ [(LDebug, MsgProcessing (srcif (from_eth0 frame_no_udp))
                                            (iface eth1));
                                 (LWarn, MsgNotIPv4UDP (srcif (from_eth0 frame_no_udp)))]
    /\ wire w' = wire world0 /\ chans w' = chans world0 /\ senders w' = senders world0
    /\ calls w' = calls world0.
Proof.
  apply (missing_layer_is_dropped example_lib eth1 (from_eth0 frame_no_udp)
           ethernet_parser decoded_no_udp world0).
  - reflexivity.
  - vm_compute. reflexivity.
  - right. simpl. intros [H|[H|[]]]; discriminate.
Defined.

(** C7, as the code has it: a message whose link type is none of the
    supported ones ends the process with a fatal log line; nothing is
    decoded and nothing is written. *)
Theorem unsupported_link_type_is_fatal (lib : Lib) (l : Listen) (sndpkt : Send)
    (w : World) :
  isValidLayerType (linkType sndpkt) = false ->
  exists w',
    sendPacket lib l sndpkt w = Stop Fatal w'
    /\ wlog w' = wlog w ++ [(LDebug, MsgProcessing (srcif sndpkt) (iface l));
                            (LFatal, MsgUnsupportedLinkType (linkType sndpkt))]
    /\ wire w' = wire w.
Proof.
  intros H. unfold sendPacket, bind at 1. simpl.
  rewrite (parser_for_invalid _ H).
  eexists. split; [reflexivity|]. simpl. rewrite <- app_assoc. split; reflexivity.
Qed.

Lemma unsupported_link_type_is_fatal_witness :
  exists w',
    sendPacket example_lib eth1 (mkSend (captured frame_plain) "eth0" LinkTypeLinuxSLL) world0
      = Stop Fatal w'
    /\ wlog w' = wlog world0 ++ [(LDebug, MsgProcessing "eth0" (iface eth1));
                                 (LFatal, MsgUnsupportedLinkType LinkTypeLinuxSLL)]
    /\ wire w' = wire world0.
Proof.
  apply (unsupported_link_type_is_fatal example_lib eth1
           (mkSend (captured frame_plain) "eth0" LinkTypeLinuxSLL) world0).
  reflexivity.
Defined.

(** C7 as stated fails: a message with the link type of Linux cooked capture
    does not return to the loop, it ends the process. *)
Lemma unsupported_link_type_not_dropped :
  isValidLayerType LinkTypeLinuxSLL = false
  /\ sendPacket example_lib eth1 (mkSend (captured frame_plain) "eth0" LinkTypeLinuxSLL) world0
     = Stop Fatal (mkWorld [(LDebug, MsgProcessing "eth0" "eth1");
                            (LFatal, MsgUnsupportedLinkType LinkTypeLinuxSLL)]
                           [] ∅ [] ∅ [])
  /\ forall w', sendPacket example_lib eth1
                  (mkSend (captured frame_plain) "eth0" LinkTypeLinuxSLL) world0
                <> Ret tt w'.
Proof.
  split; [reflexivity|]. split; [reflexivity|]. intros w'. discriminate.
Qed.

(** ** The Distributor *)

Lemma enqueue_room (ch : nat) (m : Send) (w : World) :
  has_room w ch = true ->
  exists c, chans w !! ch = Some c
            /\ enqueue ch m w
               = Ret tt (set_chans (fun cs => <[ch := mkChan (cap c) (buf c ++ [m])]> cs) w).
Proof.
  unfold has_room, enqueue. destruct (chans w !! ch) as [c|]; [|discriminate].
  intros ->. now exists c.
Qed.

(** The loop of the broadcast over a table without repeated name and
    without two names for one channel: when every target has room it runs to
    its end, every target other than the source has the message at the end
    of its buffer, and every other channel is as it was. *)
Lemma broadcast_delivers (m : Send) (targets : list (string * nat)) :
  forall w : World,
    NoDup (targets.*1) ->
    (forall n1 n2 ch, (n1, ch) ∈ targets -> (n2, ch) ∈ targets -> n1 = n2) ->
    (forall n ch, (n, ch) ∈ targets -> n <> srcif m -> has_room w ch = true) ->
    exists w',
      broadcast targets m w = Ret tt w'
      /\ same_but_chans w w'
      /\ (forall n ch, (n, ch) ∈ targets -> n <> srcif m -> delivered w w' ch m)
      /\ (forall ch, (forall n, (n, ch) ∈ targets -> n = srcif m) ->
                     chans w' !! ch = chans w !! ch).
Proof.
  induction targets as [|[n ch] rest IH]; intros w Hnd Hinj Hroom.
  - exists w. simpl. unfold pure, same_but_chans. repeat split.
    intros n ch Hin. inversion Hin.
  - simpl in Hnd. apply NoDup_cons in Hnd as [Hn Hnd].
    assert (Hinj' : forall n1 n2 c, (n1, c) ∈ rest -> (n2, c) ∈ rest -> n1 = n2).
    { intros n1 n2 c H1 H2. apply (Hinj n1 n2 c); now right. }
    assert (Hfresh : forall n', (n', ch) ∈ rest -> False).
    { intros n' Hin. assert (n' = n) by (apply (Hinj n' n ch); [now right | left]).
      subst n'. apply Hn. apply list_elem_of_fmap. now exists (n, ch). }
    simpl. destruct (String.eqb_spec n (srcif m)) as [->|Hne].
    + destruct (IH w Hnd Hinj') as (w' & Hrun & Hsame & Hdel & Hkeep).
      { intros n' c' Hin. apply Hroom. now right. }
      exists w'. split; [exact Hrun|]. split; [exact Hsame|]. split.
      * intros n' c' Hin Hn'. apply elem_of_cons in Hin as [Heq|Hin].
        -- inversion Heq; subst. congruence.
        -- now apply (Hdel n').
      * intros c' Hall. apply Hkeep. intros n' Hin. apply Hall. now right.
    + destruct (enqueue_room ch m w) as (c & Hc & Henq).
      { apply (Hroom n); [left | exact Hne]. }
      unfold bind. rewrite Henq.
      set (w1 := set_chans (fun cs => <[ch := mkChan (cap c) (buf c ++ [m])]> cs) w).
      assert (Hother : forall c', c' <> ch -> chans w1 !! c' = chans w !! c').
      { intros c' Hc'. unfold w1. simpl. now apply list_lookup_insert_ne. }
      assert (Hthis : chans w1 !! ch = Some (mkChan (cap c) (buf c ++ [m]))).
      { unfold w1. simpl. apply list_lookup_insert_eq. now apply lookup_lt_Some in Hc. }
      destruct (IH w1 Hnd Hinj') as (w' & Hrun & Hsame & Hdel & Hkeep).
      { intros n' c' Hin Hn'. unfold has_room. rewrite Hother.
        - apply (Hroom n'); [now right | exact Hn'].
        - intros ->. eauto. }
      exists w'. split; [exact Hrun|]. split; [|split].
      * unfold same_but_chans in *. unfold w1 in Hsame. simpl in Hsame. exact Hsame.
      * intros n' c' Hin Hn'. apply elem_of_cons in Hin as [Heq|Hin].
        -- inversion Heq; subst. exists c. split; [exact Hc|].
           rewrite Hkeep; [exact Hthis|]. intros n0 Hin0. exfalso. eauto.
        -- destruct (Hdel n' c' Hin Hn') as (c1 & Hc1 & Hc1').
           exists c1. split; [|exact Hc1']. rewrite <- Hother; [exact Hc1|].
           intros ->. eauto.
      * intros c' Hall. rewrite Hkeep.
        -- apply Hother. intros ->. apply Hne. apply Hall. left.
        -- intros n' Hin. apply Hall. now right.
Qed.

Lemma Send_delivers (p : Packet) (src : string) (lt : LinkType) (w : World) :
  (forall n1 n2 ch, senders w !! n1 = Some ch -> senders w !! n2 = Some ch -> n1 = n2) ->
  (forall n ch, senders w !! n = Some ch -> n <> src -> has_room w ch = true) ->
  exists w',
    SendPktFeed_Send p src lt w = Ret tt w'
    /\ same_but_chans w w'
    /\ (forall n ch, senders w !! n = Some ch -> n <> src ->
                     delivered w w' ch (mkSend p src lt))
    /\ (forall ch, (forall n, senders w !! n = Some ch -> n = src) ->
                   chans w' !! ch = chans w !! ch).
Proof.
  intros Hinj Hroom. unfold SendPktFeed_Send, bind, gets.
  destruct (broadcast_delivers (mkSend p src lt) (map_to_list (senders w)) w)
    as (w' & Hrun & Hsame & Hdel & Hkeep).
  - apply NoDup_fst_map_to_list.
  - intros n1 n2 ch H1 H2. apply elem_of_map_to_list in H1, H2. eauto.
  - intros n ch Hin Hn. apply elem_of_map_to_list in Hin. eauto.
  - exists w'. split; [exact Hrun|]. split; [exact Hsame|]. split.
    + intros n ch Hin Hn. apply (Hdel n); [now apply elem_of_map_to_list | exact Hn].
    + intros ch Hall. apply Hkeep. intros n Hin. apply Hall.
      now apply elem_of_map_to_list.
Qed.

(** ** handlePackets *)

(** A packet with a network layer and a UDP transport layer passes the test
    of the loop. *)
Lemma invalid_packet_udp (packet : Packet) (nl : LayerType) :
  NetworkLayer packet = Some nl -> TransportLayer packet = Some LayerTypeUDP ->
  invalid_packet packet = false.
Proof. intros HN HT. unfold invalid_packet. now rewrite HN, HT. Qed.

(** C9. A captured packet with a network layer and a UDP transport layer
    whose decoding left an error layer is logged as an error and submitted to
    the broadcast of the Distributor all the same; with room in the channels
    of the other interfaces it reaches each of them. *)
Theorem error_layer_still_forwarded (lib : Lib) (l : Listen) (h : Handle)
    (packet : Packet) (nl : LayerType) (errx : string) (w : World) :
  NetworkLayer packet = Some nl ->
  TransportLayer packet = Some LayerTypeUDP ->
  ErrorLayer packet = Some errx ->
  handlePackets_select lib l h (EvPacket packet) w
  = SendPktFeed_Send packet (iface l) (handle_LinkType h)
      (set_wlog (fun lg => lg ++ [(LError, MsgErrorLayer (iface l) errx);
                                  (LDebug, MsgForwarding (iface l))]) w)
  /\ ((forall n1 n2 ch, senders w !! n1 = Some ch -> senders w !! n2 = Some ch -> n1 = n2) ->
      (forall n ch, senders w !! n = Some ch -> n <> iface l -> has_room w ch = true) ->
      exists w',
        handlePackets_select lib l h (EvPacket packet) w = Ret tt w'
        /\ wlog w' = wlog w ++ [(LError, MsgErrorLayer (iface l) errx);
                                (LDebug, MsgForwarding (iface l))]
        /\ wire w' = wire w
        /\ forall n ch, senders w !! n = Some ch -> n <> iface l ->
                        delivered w w' ch (mkSend packet (iface l) (handle_LinkType h))).
Proof.
  intros HN HT HE.
  assert (Eq : handlePackets_select lib l h (EvPacket packet) w
               = SendPktFeed_Send packet (iface l) (handle_LinkType h)
                   (set_wlog (fun lg => lg ++ [(LError, MsgErrorLayer (iface l) errx);
                                               (LDebug, MsgForwarding (iface l))]) w)).
  { unfold handlePackets_select. rewrite (invalid_packet_udp packet nl HN HT), HE.
    unfold bind, Errorf, Debugf, logf. simpl. unfold set_wlog. simpl.
    now rewrite <- app_assoc. }
  split; [exact Eq|]. intros Hinj Hroom. rewrite Eq.
  destruct (Send_delivers packet (iface l) (handle_LinkType h)
              (set_wlog (fun lg => lg ++ [(LError, MsgErrorLayer (iface l) errx);
                                          (LDebug, MsgForwarding (iface l))]) w))
    as (w' & Hrun & Hsame & Hdel & _); [exact Hinj | exact Hroom |].
  exists w'. split; [exact Hrun|]. destruct Hsame as (Hlog & _ & Hwire & _).
  split; [exact Hlog|]. split; [exact Hwire|]. exact Hdel.
Qed.

(** ** The invariant of the relay *)



(** The invariant only looks at the channels, the table and the datagrams. *)
Lemma Inv_ext (L : list Listen) (w w' : World) :
  chans w' = chans w -> senders w' = senders w -> wire w' = wire w ->
  Inv L w -> Inv L w'.
Proof. intros Hc Hs Hw. unfold Inv. now rewrite Hc, Hs, Hw. Qed.










(** ** Start-up leaves the relay in a world that satisfies the invariant *)














Lemma processListener_range_fresh (pr : bool) (bpf : string) (pts : list Z) (to : Z)
    (lp : list string) :
  forall (interfaces : list string) (ret : list Listen) (w : World)
         (interfaces' : list string) (ret' : list Listen) (w' : World),
    processListener_range lp pr bpf pts to interfaces ret w = Ret (interfaces', ret') w' ->
    exists news,
      ret' = ret ++ news
      /\ map sendpkt news = seq (length (chans w)) (length news)
      /\ chans w' = chans w ++ repeat (mkChan SendBufferSize []) (length news)
      /\ senders w' = senders w /\ wire w' = wire w.
Proof.
  induction lp as [|i lp IH]; intros interfaces ret w interfaces' ret' w' H; simpl in H.
  - unfold pure in H. inversion H; subst. exists []. simpl.
    rewrite !app_nil_r. repeat split.
  - destruct (Split i "@") as [|a [|b [|c r]]]; try discriminate.
    destruct (stringPrefixInSlice _ interfaces); [discriminate|].
    unfold bind at 1 in H. simpl in H.
    apply IH in H as (news & -> & Hseq & Hch & Hs & Hw). simpl in *.
    eexists (_ :: news). split; [now rewrite <- app_assoc|].
    rewrite length_app in Hseq. simpl in Hseq.
    split; [|split; [|split]]; simpl.
    + f_equal. rewrite Hseq. f_equal. lia.
    + rewrite Hch, <- app_assoc. reflexivity.
    + exact Hs.
    + exact Hw.
Qed.

Lemma initalizeListeners_fresh (lp : list string) (pr : bool) (bpf : string)
    (pts : list Z) (to : Z) (w w' : World) (ls : list Listen) :
  initalizeListeners lp pr bpf pts to w = Ret ls w' ->
  map sendpkt ls = seq (length (chans w)) (length ls)
  /\ chans w' = chans w ++ repeat (mkChan SendBufferSize []) (length ls)
  /\ senders w' = senders w /\ wire w' = wire w.
Proof.
  unfold initalizeListeners, processListener, bind. intros H.
  destruct (processListener_range lp pr bpf pts to [] [] w) as [[ifs ret'] w0|] eqn:E;
    [|discriminate].
  unfold pure in H. inversion H; subst. simpl. rewrite fold_left_snoc. simpl.
  apply processListener_range_fresh in E as (news & -> & Hseq & Hch & Hs & Hw).
  simpl. repeat split; assumption.
Qed.



(** ** Registration stays *)






(** ** The relay *)




(** The run of the example: the packet captured on eth0 is written once, on
    eth1; the channels are empty again and both names are registered. *)
Example relay_scenario :
  exists w, run example_lib example_actions example_world = Ret tt w
    /\ wire w = [mkWrite "eth1" "eth0"
                   (mkHeader 4 20 0 32 4660 0 0 64 17 0
                             [xc0; xa8; x01; x32] [xc0; xa8; x02; xff] [])
                   [x70; x69; x6e; x67] None]
    /\ chans w = [mkChan 100 []; mkChan 100 []]
    /\ senders w !! "eth0" = Some 0%nat /\ senders w !! "eth1" = Some 1%nat.
Proof. eexists. repeat split; vm_compute; reflexivity. Qed.

Lemma error_layer_still_forwarded_witness :
  handlePackets_select example_lib eth0 (mkHandle LinkTypeEthernet)
    (EvPacket (damaged frame_plain)) world_registered
  = SendPktFeed_Send (damaged frame_plain) (iface eth0) LinkTypeEthernet
      (set_wlog (fun lg => lg ++ [(LError, MsgErrorLayer (iface eth0) "truncated");
                                  (LDebug, MsgForwarding (iface eth0))]) world_registered)
  /\ ((forall n1 n2 ch, senders world_registered !! n1 = Some ch ->
                        senders world_registered !! n2 = Some ch -> n1 = n2) ->
      (forall n ch, senders world_registered !! n = Some ch -> n <> iface eth0 ->
                    has_room world_registered ch = true) ->
      exists w',
        handlePackets_select example_lib eth0 (mkHandle LinkTypeEthernet)
          (EvPacket (damaged frame_plain)) world_registered = Ret tt w'
        /\ wlog w' = wlog world_registered
                     ++ [(LError, MsgErrorLayer (iface eth0) "truncated");
                         (LDebug, MsgForwarding (iface eth0))]
        /\ wire w' = wire world_registered
        /\ forall n ch, senders world_registered !! n = Some ch -> n <> iface eth0 ->
                        delivered world_registered w' ch
                          (mkSend (damaged frame_plain) (iface eth0) LinkTypeEthernet)).
Proof.
  apply (error_layer_still_forwarded example_lib eth0 (mkHandle LinkTypeEthernet)
           (damaged frame_plain) LayerTypeIPv4 "truncated" world_registered);
    reflexivity.
Defined.

(** The same turn evaluated: the error is logged and the message is in the
    channel of eth1, not in that of eth0. *)
Example damaged_packet_forwarded :
  handlePackets_select example_lib eth0 (mkHandle LinkTypeEthernet)
    (EvPacket (damaged frame_plain)) world_registered
  = Ret tt (mkWorld [(LError, MsgErrorLayer "eth0" "truncated");
                     (LDebug, MsgForwarding "eth0")]
                    [mkChan 100 [];
                     mkChan 100 [mkSend (damaged frame_plain) "eth0" LinkTypeEthernet]]
                    (<["eth0" := 0%nat]> (<["eth1" := 1%nat]> ∅)) [] ∅ []).
Proof. vm_compute. reflexivity. Qed.

(** ** The decoders of gopacket meet the side conditions *)

(** A decoded IPv4 header holds a source address of four bytes. *)
Lemma decode_IPv4_SrcIP (t : Tables) (data : list byte) (next : LayerType)
    (rest : list byte) (ip : IPv4) :
  decode_IPv4 t data = inl (next, rest, ip) -> length (SrcIP ip) = 4%nat.
Proof.
  unfold decode_IPv4. destruct (Nat.ltb (length data) 20) eqn:EL; [discriminate|].
  apply Nat.ltb_ge in EL.
  repeat match goal with
         | |- context [if ?b then inr _ else _] => destruct b; [discriminate|]
         end.
  destruct (decode_options _ _ _) as [[options padding]|]; [|discriminate].
  intros H.
  assert (E : firstn 4 (skipn 12 data) = SrcIP ip).
  { exact (f_equal (fun x : LayerType * list byte * IPv4 + string =>
                      match x with
                      | inl (_, _, i) => SrcIP i
                      | inr _ => []
                      end) H). }
  rewrite <- E, length_firstn, length_skipn. lia.
Qed.

Lemma decode_layer_SrcIP (t : Tables) (typ : LayerType) (data : list byte)
    (st st' : Decoded) (next : LayerType) (rest : list byte) :
  (In LayerTypeIPv4 (decoded st) -> length (SrcIP (ip4 st)) = 4%nat) ->
  decode_layer t typ data st = inl (next, rest, st') ->
  decoded st' = decoded st
  /\ (In LayerTypeIPv4 (decoded st ++ [typ]) -> length (SrcIP (ip4 st')) = 4%nat).
Proof.
  intros HP H. unfold decode_layer in H.
  assert (Hother : typ <> LayerTypeIPv4 -> ip4 st' = ip4 st ->
                   In LayerTypeIPv4 (decoded st ++ [typ]) ->
                   length (SrcIP (ip4 st')) = 4%nat).
  { intros Hne -> Hin. apply in_app_or in Hin as [Hin|[E|[]]]; [now apply HP | congruence]. }
  destruct typ; try discriminate.
  - inversion H; subst. split; [reflexivity|]. now apply Hother.
  - destruct (decode_Ethernet t data) as [[n r]|]; [|discriminate].
    inversion H; subst. split; [reflexivity|]. now apply Hother.
  - destruct (decode_Loopback t data) as [[n r]|]; [|discriminate].
    inversion H; subst. split; [reflexivity|]. now apply Hother.
  - destruct (decode_IPv4 t data) as [[[n r] ip]|] eqn:E; [|discriminate].
    inversion H; subst. split; [reflexivity|]. intros _. simpl.
    now apply decode_IPv4_SrcIP in E.
  - destruct (decode_UDP t data) as [[n r]|]; [|discriminate].
    inversion H; subst. split; [reflexivity|]. now apply Hother.
Qed.

Lemma decode_loop_SrcIP (t : Tables) (decoders : list LayerType) (fuel : nat) :
  forall (typ : LayerType) (data : list byte) (st st' : Decoded) (next : LayerType),
    (In LayerTypeIPv4 (decoded st) -> length (SrcIP (ip4 st)) = 4%nat) ->
    decode_loop fuel t decoders typ data st = inl (next, st') ->
    In LayerTypeIPv4 (decoded st') -> length (SrcIP (ip4 st')) = 4%nat.
Proof.
  induction fuel as [|fuel IH]; intros typ data st st' next HP H; simpl in H.
  - inversion H; subst. exact HP.
  - destruct (decode_layer t typ data st) as [[[n r] st1]|] eqn:E; [|discriminate].
    destruct (decode_layer_SrcIP t typ data st st1 n r HP E) as [Hd HP1].
    rewrite Hd in H.
    destruct (Nat.eqb (length r) 0); [inversion H; subst; exact HP1|].
    destruct (has_decoder decoders n); [|inversion H; subst; exact HP1].
    eapply IH; [|exact H]. exact HP1.
Qed.

Lemma gopacket_DecodeLayers_SrcIP (t : Tables) (parser : Parser) (data : list byte)
    (d : Decoded) :
  gopacket_DecodeLayers t parser data = inl d ->
  In LayerTypeIPv4 (decoded d) -> length (SrcIP (ip4 d)) = 4%nat.
Proof.
  unfold gopacket_DecodeLayers. destruct (negb _); [discriminate|].
  destruct (decode_loop _ _ _ _ _ _) as [[next st]|] eqn:E; [|discriminate].
  intros H. assert (st = d) by (destruct next; now inversion H). subst st.
  eapply decode_loop_SrcIP; [|exact E]. simpl. contradiction.
Qed.

(** [parseIPv4] answers the 16-byte form of an IPv4 address, or nil. *)
Lemma parseIPv4_form (s : string) :
  parseIPv4 s = [] \/ exists a b c d, parseIPv4 s = net_IPv4 a b c d.
Proof.
  unfold parseIPv4. destruct (Split s ".") as [|a [|b [|c [|d [|e r]]]]]; auto.
  destruct (parse_octet a), (parse_octet b), (parse_octet c), (parse_octet d); eauto 6.
Qed.

(** ** handlePackets is a run of one goroutine *)

Lemma handlePackets_loop_run (lib : Lib) (l : Listen) (h : Handle) (evs : list Event)
    (w : World) :
  handle l = Some h ->
  handlePackets_loop lib l h evs w = run lib (map (Select l) evs) w.
Proof.
  intros Hh. revert w. induction evs as [|ev evs IH]; intros w; simpl; [reflexivity|].
  rewrite Hh. unfold bind. destruct (handlePackets_select lib l h ev w); [apply IH | reflexivity].
Qed.

Lemma handlePackets_run (lib : Lib) (l : Listen) (h : Handle) (evs : list Event) (w : World) :
  handle l = Some h ->
  handlePackets lib l evs w = run lib (Start l :: map (Select l) evs) w.
Proof.
  intros Hh. unfold handlePackets. simpl. rewrite Hh. unfold bind. simpl.
  now apply handlePackets_loop_run.
Qed.

(** * Further properties of the code *)

(** ** The ways out of sendPacket *)

(** A frame the parser cannot decode is given up with a warning that carries
    the error: the call returns and nothing is written. *)
Theorem decode_error_is_dropped (lib : Lib) (l : Listen) (sndpkt : Send)
    (parser : Parser) (err : string) (w : World) :
  parser_for (linkType sndpkt) = Some parser ->
  DecodeLayers lib parser (Data (packet sndpkt)) = inr err ->
  exists w',
    sendPacket lib l sndpkt w = Ret tt w'
    /\ wlog w' = wlog w ++ [(LDebug, MsgProcessing (srcif sndpkt) (iface l));
                            (LWarn, MsgUnableToDecode (srcif sndpkt) err)]
    /\ wire w' = wire w /\ chans w' = chans w /\ senders w' = senders w.
Proof.
  intros HP HD. unfold sendPacket, bind at 1. simpl. rewrite HP, HD.
  eexists. split; [reflexivity|]. simpl. rewrite <- app_assoc. repeat split.
Qed.

Lemma decode_error_is_dropped_witness :
  exists w',
    sendPacket example_lib eth1 (from_eth0 frame_arp) world0 = Ret tt w'
    /\ wlog w' = wlog world0 ++ [(LDebug, MsgProcessing (srcif (from_eth0 frame_arp))
                                            (iface eth1));
                                 (LWarn, MsgUnableToDecode (srcif (from_eth0 frame_arp))
                                           "No decoder for layer type")]
    /\ wire w' = wire world0 /\ chans w' = chans world0 /\ senders w' = senders world0.
Proof.
  apply (decode_error_is_dropped example_lib eth1 (from_eth0 frame_arp) ethernet_parser
           "No decoder for layer type" world0).
  - reflexivity.
  - vm_compute. reflexivity.
Defined.

Section HandOff.

Variable lib : Lib.
Variable l : Listen.
Variable sndpkt : Send.
Variable parser : Parser.
Variable d : Decoded.
Variable rc : RawConn.

Hypothesis parser_built : parser_for (linkType sndpkt) = Some parser.
Hypothesis layers_decoded : DecodeLayers lib parser (Data (packet sndpkt)) = inl d.
Hypothesis has_ipv4 : In LayerTypeIPv4 (decoded d).
Hypothesis has_udp : In LayerTypeUDP (decoded d).
Hypothesis socket : raw l = Some rc.

Lemma sendPacket_at_socket (w : World) :
  sendPacket lib l sndpkt w
  = match SetControlMessage_err rc with
    | Some err => Fatalf (MsgControlMessage err)
    | None =>
        write (mkWrite (iface l) (srcif sndpkt) (build_header lib l (ip4 d)) (payload d)
                 (WriteTo_err rc));;
        match WriteTo_err rc with
        | Some err => Errorf (MsgUnableToSend (iface l) err)
        | None => pure tt
        end
    end (set_wlog (fun lg => lg ++ [(LDebug, MsgProcessing (srcif sndpkt) (iface l));
                                    (LDebug, MsgHeader (build_header lib l (ip4 d)))]) w).
Proof.
  rewrite (sendPacket_decoded lib l sndpkt parser d parser_built layers_decoded
             has_ipv4 has_udp w).
  unfold handoff, bind at 1. simpl. rewrite socket. unfold set_wlog. simpl.
  now rewrite <- app_assoc.
Qed.

(** When the socket refuses the control message the process exits: the
    header was built and logged, nothing is written. *)
Theorem control_message_error_is_fatal (err : string) (w : World) :
  SetControlMessage_err rc = Some err ->
  exists w',
    sendPacket lib l sndpkt w = Stop Fatal w'
    /\ wlog w' = wlog w ++ [(LDebug, MsgProcessing (srcif sndpkt) (iface l));
                            (LDebug, MsgHeader (build_header lib l (ip4 d)));
                            (LFatal, MsgControlMessage err)]
    /\ wire w' = wire w.
Proof.
  intros HC. rewrite sendPacket_at_socket, HC.
  eexists. split; [reflexivity|]. simpl. rewrite <- app_assoc. split; reflexivity.
Qed.

(** A write that fails is logged as an error and the call returns: one
    attempt was made, the message is not tried again and the process goes
    on. *)
Theorem write_error_is_logged (err : string) (w : World) :
  SetControlMessage_err rc = None ->
  WriteTo_err rc = Some err ->
  exists w',
    sendPacket lib l sndpkt w = Ret tt w'
    /\ wlog w' = wlog w ++ [(LDebug, MsgProcessing (srcif sndpkt) (iface l));
                            (LDebug, MsgHeader (build_header lib l (ip4 d)));
                            (LError, MsgUnableToSend (iface l) err)]
    /\ wire w' = wire w ++ [mkWrite (iface l) (srcif sndpkt) (build_header lib l (ip4 d))
                              (payload d) (Some err)].
Proof.
  intros HC HW. rewrite sendPacket_at_socket, HC, HW.
  eexists. split; [reflexivity|]. simpl. rewrite <- app_assoc. split; reflexivity.
Qed.

(** A write that succeeds leaves no line in the log beyond the two debug
    lines, and one datagram on the wire. *)
Theorem write_success_is_quiet (w : World) :
  SetControlMessage_err rc = None ->
  WriteTo_err rc = None ->
  exists w',
    sendPacket lib l sndpkt w = Ret tt w'
    /\ wlog w' = wlog w ++ [(LDebug, MsgProcessing (srcif sndpkt) (iface l));
                            (LDebug, MsgHeader (build_header lib l (ip4 d)))]
    /\ wire w' = wire w ++ [mkWrite (iface l) (srcif sndpkt) (build_header lib l (ip4 d))
                              (payload d) None].
Proof.
  intros HC HW. rewrite sendPacket_at_socket, HC, HW.
  eexists. split; [reflexivity|]. split; reflexivity.
Qed.

End HandOff.

Lemma control_message_error_is_fatal_witness :
  exists w',
    sendPacket example_lib eth1_refusing (from_eth0 frame_plain) world0 = Stop Fatal w'
    /\ wlog w' = wlog world0
                 ++ [(LDebug, MsgProcessing (srcif (from_eth0 frame_plain)) (iface eth1_refusing));
                     (LDebug, MsgHeader (build_header example_lib eth1_refusing
                                           (ip4 decoded_plain)));
                     (LFatal, MsgControlMessage "use of closed network connection")]
    /\ wire w' = wire world0.
Proof.
  refine (control_message_error_is_fatal example_lib eth1_refusing (from_eth0 frame_plain)
            ethernet_parser decoded_plain
            (mkRawConn (Some "use of closed network connection") None)
            _ _ _ _ _ "use of closed network connection" world0 _).
  - reflexivity.
  - vm_compute. reflexivity.
  - simpl. tauto.
  - simpl. tauto.
  - reflexivity.
  - reflexivity.
Defined.

Lemma write_error_is_logged_witness :
  exists w',
    sendPacket example_lib eth1_failing (from_eth0 frame_plain) world0 = Ret tt w'
    /\ wlog w' = wlog world0
                 ++ [(LDebug, MsgProcessing (srcif (from_eth0 frame_plain)) (iface eth1_failing));
                     (LDebug, MsgHeader (build_header example_lib eth1_failing
                                           (ip4 decoded_plain)));
                     (LError, MsgUnableToSend (iface eth1_failing) "network is unreachable")]
    /\ wire w' = wire world0
                 ++ [mkWrite (iface eth1_failing) (srcif (from_eth0 frame_plain))
                       (build_header example_lib eth1_failing (ip4 decoded_plain))
                       (payload decoded_plain) (Some "network is unreachable")].
Proof.
  refine (write_error_is_logged example_lib eth1_failing (from_eth0 frame_plain)
            ethernet_parser decoded_plain (mkRawConn None (Some "network is unreachable"))
            _ _ _ _ _ "network is unreachable" world0 _ _).
  - reflexivity.
  - vm_compute. reflexivity.
  - simpl. tauto.
  - simpl. tauto.
  - reflexivity.
  - reflexivity.
  - reflexivity.
Defined.



(** No message is given up in silence: when [sendPacket] runs on a listener
    with a socket and hands no datagram to it, the last line of its log is a
    warning or a fatal error. *)
Theorem sendPacket_drop_is_logged (lib : Lib) (l : Listen) (sndpkt : Send) (rc : RawConn)
    (w : World) :
  raw l = Some rc ->
  wire (outcome (sendPacket lib l sndpkt w)) = wire w ->
  exists lg lvl m,
    wlog (outcome (sendPacket lib l sndpkt w)) = lg ++ [(lvl, m)]
    /\ (lvl = LWarn \/ lvl = LFatal).
Proof.
  intros HR. unfold sendPacket, bind, Debugf, Warnf, Errorf, Fatalf, logf, write, stop, pure.
  simpl.
  destruct (parser_for (linkType sndpkt)); simpl; [|intros _; eexists _, _, _; eauto].
  destruct (DecodeLayers lib _ _) as [d|err]; simpl; [|intros _; eexists _, _, _; eauto].
  destruct (found_layers (decoded d)) as [u i].
  destruct (negb u || negb i); simpl; [intros _; eexists _, _, _; eauto|].
  rewrite HR. simpl.
  destruct (SetControlMessage_err rc); simpl; [intros _; eexists _, _, _; eauto|].
  destruct (WriteTo_err rc); simpl; intros HW; exfalso;
    apply (f_equal (@length Write)) in HW; rewrite length_app in HW; simpl in HW; lia.
Qed.

Lemma sendPacket_drop_is_logged_witness :
  exists lg lvl m,
    wlog (outcome (sendPacket example_lib eth1 (from_eth0 frame_arp) world0)) = lg ++ [(lvl, m)]
    /\ (lvl = LWarn \/ lvl = LFatal).
Proof.
  apply (sendPacket_drop_is_logged example_lib eth1 (from_eth0 frame_arp)
           (mkRawConn None None) world0); reflexivity.
Defined.

(** ** The test of the capture loop *)

(** A captured packet without network layer, without transport layer, or with
    a transport layer that is not UDP gets a warning and nothing else: it is
    not passed to the Distributor, no channel changes and nothing is
    written. *)
Theorem invalid_packet_is_dropped (lib : Lib) (l : Listen) (h : Handle) (packet : Packet)
    (w : World) :
  NetworkLayer packet = None \/ TransportLayer packet = None
  \/ (exists ty, TransportLayer packet = Some ty /\ ty <> LayerTypeUDP) ->
  handlePackets_select lib l h (EvPacket packet) w
  = Ret tt (set_wlog (fun lg => lg ++ [(LWarn, MsgInvalidPacket (iface l))]) w).
Proof.
  intros H. unfold handlePackets_select.
  assert (E : invalid_packet packet = true).
  { unfold invalid_packet. destruct H as [->|[->|(ty & -> & Hne)]].
    - reflexivity.
    - now destruct (NetworkLayer packet).
    - destruct (NetworkLayer packet); [|reflexivity].
      apply negb_true_iff. now apply bool_decide_eq_false. }
  now rewrite E.
Qed.

Lemma invalid_packet_is_dropped_witness :
  handlePackets_select example_lib eth0 (mkHandle LinkTypeEthernet)
    (EvPacket (captured_tcp frame_plain)) world_registered
  = Ret tt (set_wlog (fun lg => lg ++ [(LWarn, MsgInvalidPacket (iface eth0))])
              world_registered).
Proof.
  apply (invalid_packet_is_dropped example_lib eth0 (mkHandle LinkTypeEthernet)
           (captured_tcp frame_plain) world_registered).
  right. right. exists (LayerTypeOther 44). split; [reflexivity | discriminate].
Defined.

(** ** More on processListener *)



Lemma lookup_repeat {A : Type} (x : A) (n i : nat) :
  (i < n)%nat -> repeat x n !! i = Some x.
Proof.
  revert i. induction n as [|n IH]; intros i Hi; [lia|].
  destruct i as [|i]; simpl; [reflexivity|]. apply IH. lia.
Qed.

(** The listeners come back with a channel each: the channels are distinct,
    new (no channel of the world before has their index), empty and of
    capacity [SendBufferSize]; the channels that were there are untouched. *)
Theorem listeners_get_fresh_channels (lp : list string) (pr : bool) (bpf : string)
    (pts : list Z) (to : Z) (w w' : World) (ls : list Listen) :
  initalizeListeners lp pr bpf pts to w = Ret ls w' ->
  NoDup (map sendpkt ls)
  /\ (forall l, In l ls ->
        chans w !! sendpkt l = None
        /\ chans w' !! sendpkt l = Some (mkChan SendBufferSize []))
  /\ (forall k c, chans w !! k = Some c -> chans w' !! k = Some c)
  /\ length (chans w') = (length (chans w) + length ls)%nat.
Proof.
  intros H. apply initalizeListeners_fresh in H as (Hseq & Hch & _ & _).
  split; [rewrite Hseq; apply list.NoDup_seq|]. split; [|split].
  - intros l Hl.
    assert (Hin : In (sendpkt l) (seq (length (chans w)) (length ls))).
    { rewrite <- Hseq. now apply in_map. }
    apply in_seq in Hin as [Hlo Hhi]. split.
    + apply lookup_ge_None. lia.
    + rewrite Hch, lookup_app_r by lia.
      apply lookup_repeat. lia.
  - intros k c Hk. rewrite Hch. apply lookup_app_l_Some. exact Hk.
  - rewrite Hch, length_app, repeat_length. reflexivity.
Qed.

Lemma listeners_get_fresh_channels_witness :
  NoDup (map sendpkt (listens_of example_config false "udp" [9999] 250 0))
  /\ (forall l, In l (listens_of example_config false "udp" [9999] 250 0) ->
        chans world0 !! sendpkt l = None
        /\ chans (with_fresh_chans 2 world0) !! sendpkt l = Some (mkChan SendBufferSize []))
  /\ (forall k c, chans world0 !! k = Some c -> chans (with_fresh_chans 2 world0) !! k = Some c)
  /\ length (chans (with_fresh_chans 2 world0))
     = (length (chans world0)
        + length (listens_of example_config false "udp" [9999%Z] 250%Z 0))%nat.
Proof.
  apply (listeners_get_fresh_channels example_config false "udp" [9999] 250 world0).
  reflexivity.
Defined.






(** ** The interface registry (getConfiguredInterfaces) *)

Lemma getConfiguredInterfaces_Ret (os : Sys) (w : World) :
  can_enumerate os w ->
  getConfiguredInterfaces os w
  = Ret tt (set_Interfaces (fun _ => registry os w)
              (set_calls (fun cs => cs ++ enumeration w) w)).
Proof.
  intros HC. unfold getConfiguredInterfaces, registry, enumeration, bind, gets, call.
  destruct (Nat.eqb (size (Interfaces w)) 0) eqn:E; simpl.
  - destruct HC as [HC|[ifs HC]]; [apply Nat.eqb_eq in E; contradiction|].
    rewrite HC. reflexivity.
  - destruct w; unfold pure, set_Interfaces, set_calls; simpl. now rewrite app_nil_r.
Qed.

Lemma populate_spec (ifs : list Interface) :
  forall (m : gmap string Interface) (n : string) (i : Interface),
    populate ifs m !! n = Some i ->
    m !! n = Some i \/ (In i ifs /\ Name i = n /\ Addresses i <> []).
Proof.
  unfold populate. induction ifs as [|j ifs IH]; intros m n i H; simpl in H; [now left|].
  apply IH in H as [H|(Hin & Hn & Ha)]; [|right; repeat split; auto; now right].
  destruct (Addresses j) as [|a r] eqn:EA; simpl in H; [now left|].
  destruct (decide (Name j = n)) as [<-|Hne].
  - rewrite lookup_insert_eq in H. inversion H; subst. right.
    repeat split; [now left | now rewrite EA].
  - rewrite lookup_insert_ne in H by exact Hne. now left.
Qed.

Lemma populate_keeps (ifs : list Interface) :
  forall (m : gmap string Interface) (n : string),
    is_Some (m !! n) -> is_Some (populate ifs m !! n).
Proof.
  unfold populate. induction ifs as [|j ifs IH]; intros m n H; simpl; [exact H|].
  apply IH. destruct (Nat.eqb (length (Addresses j)) 0); [exact H|].
  destruct (decide (Name j = n)) as [<-|Hne].
  - rewrite lookup_insert_eq. eauto.
  - now rewrite lookup_insert_ne.
Qed.

Lemma populate_has (ifs : list Interface) :
  forall (m : gmap string Interface) (i : Interface),
    In i ifs -> Addresses i <> [] -> is_Some (populate ifs m !! Name i).
Proof.
  induction ifs as [|j ifs IH]; intros m i Hin Ha; [contradiction|].
  destruct Hin as [->|Hin].
  - unfold populate. simpl. destruct (Addresses i) as [|a r] eqn:EA; [congruence|].
    simpl. apply (populate_keeps ifs). rewrite lookup_insert_eq. eauto.
  - unfold populate. simpl. now apply IH.
Qed.

Lemma populate_none (ifs : list Interface) (m : gmap string Interface) :
  Forall (fun i => Addresses i = []) ifs -> populate ifs m = m.
Proof.
  unfold populate. intros H. revert m.
  induction H as [|j ifs Hj _ IH]; intros m; simpl; [reflexivity|].
  rewrite Hj. simpl. apply IH.
Qed.

(** The registry the first enumeration builds holds the interfaces libpcap
    found that have an address, each under its own name, and no other: an
    interface without address is left out. *)
Theorem registry_holds_addressed_interfaces (os : Sys) (ifs : list Interface) (w : World) :
  Interfaces w = ∅ ->
  FindAllDevs os = inl ifs ->
  exists w',
    getConfiguredInterfaces os w = Ret tt w'
    /\ calls w' = calls w ++ [CallFindAllDevs]
    /\ (forall n i, Interfaces w' !! n = Some i ->
          In i ifs /\ Name i = n /\ Addresses i <> [])
    /\ (forall i, In i ifs -> Addresses i <> [] -> is_Some (Interfaces w' !! Name i)).
Proof.
  intros HE HF. eexists. split; [apply getConfiguredInterfaces_Ret; right; eauto|].
  unfold registry, enumeration. simpl. rewrite HE, HF. simpl.
  split; [reflexivity|]. split.
  - intros n i H. apply populate_spec in H as [H|H]; [|exact H].
    rewrite lookup_empty in H. discriminate.
  - intros i Hin Ha. now apply populate_has.
Qed.

Lemma registry_holds_addressed_interfaces_witness :
  exists w',
    getConfiguredInterfaces example_sys world0 = Ret tt w'
    /\ calls w' = calls world0 ++ [CallFindAllDevs]
    /\ (forall n i, Interfaces w' !! n = Some i ->
          In i example_interfaces /\ Name i = n /\ Addresses i <> [])
    /\ (forall i, In i example_interfaces -> Addresses i <> [] ->
          is_Some (Interfaces w' !! Name i)).
Proof.
  apply (registry_holds_addressed_interfaces example_sys example_interfaces world0);
    reflexivity.
Defined.

Lemma populate_nonempty (ifs : list Interface) (m : gmap string Interface) :
  Exists (fun i => Addresses i <> []) ifs -> size (populate ifs m) <> 0%nat.
Proof.
  intros HE. apply List.Exists_exists in HE as (i & Hin & Ha).
  destruct (populate_has ifs m i Hin Ha) as [j Hj].
  intros Hs. apply map_size_empty_iff in Hs. rewrite Hs, lookup_empty in Hj. discriminate.
Qed.

(** The enumeration is made once: when libpcap finds an interface with an
    address, a second call finds the registry filled and does nothing, so
    libpcap was asked once. *)
Theorem registry_is_enumerated_once (os : Sys) (ifs : list Interface) (w : World) :
  Interfaces w = ∅ ->
  FindAllDevs os = inl ifs ->
  Exists (fun i => Addresses i <> []) ifs ->
  exists w',
    getConfiguredInterfaces os w = Ret tt w'
    /\ getConfiguredInterfaces os w' = Ret tt w'
    /\ (getConfiguredInterfaces os;; getConfiguredInterfaces os) w = Ret tt w'
    /\ calls w' = calls w ++ [CallFindAllDevs].
Proof.
  intros HE HF Hex.
  pose proof (getConfiguredInterfaces_Ret os w (or_intror (ex_intro _ ifs HF))) as H1.
  set (w' := set_Interfaces (fun _ => registry os w)
               (set_calls (fun cs => cs ++ enumeration w) w)) in *.
  assert (Hsize : size (Interfaces w') <> 0%nat).
  { unfold w', registry. simpl. rewrite HE, HF. simpl. now apply populate_nonempty. }
  assert (H2 : getConfiguredInterfaces os w' = Ret tt w').
  { unfold getConfiguredInterfaces, bind, gets.
    destruct (Nat.eqb (size (Interfaces w')) 0) eqn:E; [|reflexivity].
    apply Nat.eqb_eq in E. contradiction. }
  exists w'. split; [exact H1|]. split; [exact H2|]. split.
  - unfold bind. now rewrite H1.
  - unfold w', enumeration. simpl. now rewrite HE.
Qed.

Lemma registry_is_enumerated_once_witness :
  exists w',
    getConfiguredInterfaces example_sys world0 = Ret tt w'
    /\ getConfiguredInterfaces example_sys w' = Ret tt w'
    /\ (getConfiguredInterfaces example_sys;; getConfiguredInterfaces example_sys) world0
       = Ret tt w'
    /\ calls w' = calls world0 ++ [CallFindAllDevs].
Proof.
  apply (registry_is_enumerated_once example_sys example_interfaces world0).
  - reflexivity.
  - reflexivity.
  - apply Exists_cons_hd. discriminate.
Defined.

(** On a host where no interface has an address the registry stays empty,
    and every call asks libpcap again. *)
Theorem empty_registry_is_enumerated_again (os : Sys) (ifs : list Interface) (w : World) :
  Interfaces w = ∅ ->
  FindAllDevs os = inl ifs ->
  Forall (fun i => Addresses i = []) ifs ->
  exists w',
    (getConfiguredInterfaces os;; getConfiguredInterfaces os) w = Ret tt w'
    /\ Interfaces w' = ∅
    /\ calls w' = calls w ++ [CallFindAllDevs; CallFindAllDevs].
Proof.
  intros HE HF Hall.
  assert (HC : forall v, can_enumerate os v) by (intros v; right; eauto).
  assert (HR : forall v, Interfaces v = ∅ -> registry os v = ∅ /\ enumeration v = [CallFindAllDevs]).
  { intros v Hv. unfold registry, enumeration. rewrite Hv, HF. simpl.
    split; [now apply populate_none | reflexivity]. }
  unfold bind. rewrite (getConfiguredInterfaces_Ret os w (HC w)).
  destruct (HR w HE) as [Hr1 He1].
  set (w1 := set_Interfaces (fun _ => registry os w)
               (set_calls (fun cs => cs ++ enumeration w) w)).
  assert (H1 : Interfaces w1 = ∅) by exact Hr1.
  rewrite (getConfiguredInterfaces_Ret os w1 (HC w1)).
  destruct (HR w1 H1) as [Hr2 He2].
  eexists. split; [reflexivity|]. split; [exact Hr2|]. simpl.
  rewrite He2. unfold w1. simpl. rewrite He1. now rewrite <- app_assoc.
Qed.

Lemma empty_registry_is_enumerated_again_witness :
  exists w',
    (getConfiguredInterfaces bare_sys;; getConfiguredInterfaces bare_sys) world0 = Ret tt w'
    /\ Interfaces w' = ∅
    /\ calls w' = calls world0 ++ [CallFindAllDevs; CallFindAllDevs].
Proof.
  apply (empty_registry_is_enumerated_again bare_sys
           [mkInterface "eth0" []; mkInterface "eth1" []] world0).
  - reflexivity.
  - reflexivity.
  - repeat constructor.
Defined.

(** ** Opening an interface (initalizeInterface) *)

(** Turns of the monad, to walk through [initalizeInterface]. *)
Lemma bind_call {A : Type} (c : Call) (k : unit -> M A) (w : World) :
  bind (call c) k w = k tt (set_calls (fun cs => cs ++ [c]) w).
Proof. reflexivity. Qed.

Lemma bind_check_None {A : Type} (name : string) (k : unit -> M A) (w : World) :
  bind (check name None) k w = k tt w.
Proof. reflexivity. Qed.

Lemma bind_check_Some {A : Type} (name err : string) (k : unit -> M A) (w : World) :
  bind (check name (Some err)) k w
  = Stop Fatal (set_wlog (fun lg => lg ++ [(LFatal, MsgIfaceError name err)]) w).
Proof. reflexivity. Qed.

Lemma bind_Debugf {A : Type} (m : Msg) (k : unit -> M A) (w : World) :
  bind (Debugf m) k w = k tt (set_wlog (fun lg => lg ++ [(LDebug, m)]) w).
Proof. reflexivity. Qed.

Lemma bind_gets {A B : Type} (f : World -> A) (k : A -> M B) (w : World) :
  bind (gets f) k w = k (f w) w.
Proof. reflexivity. Qed.

Lemma initalizeInterface_enter (os : Sys) (l : Listen) (w : World) :
  can_enumerate os w ->
  initalizeInterface os l w
  = (if Nat.eqb (length (addresses_of (registry os w) (iface l))) 0
     then Fatalf MsgNotConfigured
     else
       call (CallNewInactiveHandle (iface l));;
       check (iface l) (NewInactiveHandle os (iface l));;
       call (CallSetTimeout (iface l) (timeout l));;
       check (iface l) (SetTimeout os (iface l) (timeout l));;
       call (CallSetPromisc (iface l) (promisc l));;
       check (iface l) (SetPromisc os (iface l) (promisc l));;
       call (CallSetSnapLen (iface l) 9000);;
       check (iface l) (SetSnapLen os (iface l) 9000);;
       call (CallActivate (iface l));;
       match Activate os (iface l) with
       | inr err => Fatalf (MsgIfaceError (iface l) err)
       | inl h =>
           call (CallSetBPFFilter (iface l) (filter l));;
           check (iface l) (SetBPFFilter os (iface l) (filter l));;
           call (CallSetDirectionIn (iface l));;
           check (iface l) (SetDirection os (iface l));;
           Debugf (MsgOpenedPcap (iface l));;
           match first_ipv4 (addresses_of (registry os w) (iface l)) with
           | None => Fatalf (MsgNoListen (iface l))
           | Some ip =>
               let listen := IP_String (IP ip) in
               Debugf (MsgIfaceIP (iface l) listen);;
               call (CallListenPacket "ip:udp" listen);;
               check (iface l) (ListenPacket os "ip:udp" listen);;
               Debugf (MsgListening (iface l) listen);;
               call (CallNewPacketConn listen);;
               call (CallNewRawConn listen);;
               match NewRawConn os listen with
               | inr err => Fatalf (MsgIfaceError (iface l) err)
               | inl rc =>
                   Debugf (MsgOpenedRaw (iface l) (LocalAddr os listen));;
                   call (CallClosePacketConn listen);;
                   call (CallCloseConn listen);;
                   call (CallCleanUp (iface l));;
                   pure (mkListen (iface l) (filter l) (ports l) (ipaddr l) (promisc l)
                           (Some h) (Some rc) (timeout l) (sendpkt l))
               end
           end
       end)
      (set_Interfaces (fun _ => registry os w)
         (set_calls (fun cs => cs ++ enumeration w) w)).
Proof.
  intros HC. unfold initalizeInterface. unfold bind at 1.
  rewrite (getConfiguredInterfaces_Ret os w HC). rewrite bind_gets. reflexivity.
Qed.


Lemma opened_handles_enumeration (w w' : World) :
  calls w' = calls w ++ enumeration w -> opened_handles w' = opened_handles w.
Proof.
  intros H. unfold opened_handles. rewrite H, List.filter_app.
  unfold enumeration. destruct (Nat.eqb _ 0); simpl; now rewrite app_nil_r.
Qed.

(** An interface the registry does not know, or knows without address, ends
    the process before libpcap is asked for a handle. *)
Theorem unknown_interface_is_fatal (os : Sys) (l : Listen) (w : World) :
  can_enumerate os w ->
  addresses_of (registry os w) (iface l) = [] ->
  exists w',
    initalizeInterface os l w = Stop Fatal w'
    /\ wlog w' = wlog w ++ [(LFatal, MsgNotConfigured)]
    /\ calls w' = calls w ++ enumeration w
    /\ opened_handles w' = opened_handles w.
Proof.
  intros HC HA. rewrite (initalizeInterface_enter os l w HC), HA.
  eexists. split; [reflexivity|].
  split; [reflexivity|]. split; [reflexivity|].
  now apply opened_handles_enumeration.
Qed.

Lemma unknown_interface_is_fatal_witness :
  exists w',
    initalizeInterface example_sys eth9_config world0 = Stop Fatal w'
    /\ wlog w' = wlog world0 ++ [(LFatal, MsgNotConfigured)]
    /\ calls w' = calls world0 ++ enumeration world0
    /\ opened_handles w' = opened_handles world0.
Proof.
  apply (unknown_interface_is_fatal example_sys eth9_config world0).
  - right. eexists. reflexivity.
  - reflexivity.
Defined.

Section OpenedHandle.

Variable os : Sys.
Variable l : Listen.
Variable h : Handle.
Variable w : World.

Hypothesis enumerated : can_enumerate os w.
Hypothesis opens : handle_opens os l h.

(** The world after the capture handle was opened and set up. *)
Let after_handle : World :=
  set_wlog (fun lg => lg ++ [(LDebug, MsgOpenedPcap (iface l))])
    (set_Interfaces (fun _ => registry os w)
       (set_calls (fun cs => cs ++ enumeration w ++ handle_calls l) w)).

Lemma initalizeInterface_after_handle :
  addresses_of (registry os w) (iface l) <> [] ->
  initalizeInterface os l w
  = match first_ipv4 (addresses_of (registry os w) (iface l)) with
    | None => Fatalf (MsgNoListen (iface l))
    | Some ip =>
        let listen := IP_String (IP ip) in
        Debugf (MsgIfaceIP (iface l) listen);;
        call (CallListenPacket "ip:udp" listen);;
        check (iface l) (ListenPacket os "ip:udp" listen);;
        Debugf (MsgListening (iface l) listen);;
        call (CallNewPacketConn listen);;
        call (CallNewRawConn listen);;
        match NewRawConn os listen with
        | inr err => Fatalf (MsgIfaceError (iface l) err)
        | inl rc =>
            Debugf (MsgOpenedRaw (iface l) (LocalAddr os listen));;
            call (CallClosePacketConn listen);;
            call (CallCloseConn listen);;
            call (CallCleanUp (iface l));;
            pure (mkListen (iface l) (filter l) (ports l) (ipaddr l) (promisc l)
                    (Some h) (Some rc) (timeout l) (sendpkt l))
        end
    end after_handle.
Proof.
  intros HA. destruct opens as (H1 & H2 & H3 & H4 & H5 & H6 & H7).
  rewrite (initalizeInterface_enter os l w enumerated).
  destruct (addresses_of (registry os w) (iface l)) as [|a r] eqn:EA; [congruence|].
  cbn [length Nat.eqb].
  rewrite bind_call, H1, bind_check_None, bind_call, H2, bind_check_None,
          bind_call, H3, bind_check_None, bind_call, H4, bind_check_None,
          bind_call, H5, bind_call, H6, bind_check_None, bind_call, H7,
          bind_check_None, bind_Debugf.
  f_equal. unfold after_handle, handle_calls. cbv [wlog chans senders wire Interfaces calls set_wlog set_Interfaces set_calls].
  rewrite <- !app_assoc. reflexivity.
Qed.

(** An interface without IPv4 address ends the process after its capture
    handle was opened and set up; no socket call was made. *)
Theorem interface_without_ipv4_is_fatal :
  addresses_of (registry os w) (iface l) <> [] ->
  first_ipv4 (addresses_of (registry os w) (iface l)) = None ->
  exists w',
    initalizeInterface os l w = Stop Fatal w'
    /\ wlog w' = wlog w ++ [(LDebug, MsgOpenedPcap (iface l)); (LFatal, MsgNoListen (iface l))]
    /\ calls w' = calls w ++ enumeration w ++ handle_calls l.
Proof.
  intros HA HN. rewrite (initalizeInterface_after_handle HA), HN.
  eexists. split; [reflexivity|]. unfold after_handle. cbv [wlog chans senders wire Interfaces calls set_wlog set_Interfaces set_calls].
  rewrite <- app_assoc. split; reflexivity.
Qed.

(** When every call succeeds the listener comes back with its handle and
    its socket, its configuration unchanged. The calls are made in the order
    of the source: the handle with a snapshot length of 9000 and inbound
    direction, then a socket on the first address of the interface that has
    a 4-byte form; and the three deferred calls have run when the function
    returns, so the connection the raw socket was made from is closed. *)
Theorem initalizeInterface_opens (ip : InterfaceAddress) (rc : RawConn) :
  first_ipv4 (addresses_of (registry os w) (iface l)) = Some ip ->
  ListenPacket os "ip:udp" (IP_String (IP ip)) = None ->
  NewRawConn os (IP_String (IP ip)) = inl rc ->
  exists w',
    initalizeInterface os l w
    = Ret (mkListen (iface l) (filter l) (ports l) (ipaddr l) (promisc l)
             (Some h) (Some rc) (timeout l) (sendpkt l)) w'
    /\ calls w' = calls w ++ enumeration w ++ handle_calls l
                  ++ socket_calls l (IP_String (IP ip))
    /\ Interfaces w' = registry os w
    /\ chans w' = chans w /\ senders w' = senders w /\ wire w' = wire w.
Proof.
  intros HF HL HR.
  assert (HA : addresses_of (registry os w) (iface l) <> []).
  { intros E. rewrite E in HF. discriminate. }
  rewrite (initalizeInterface_after_handle HA), HF. cbv zeta.
  rewrite bind_Debugf, bind_call, HL, bind_check_None, bind_Debugf, bind_call, bind_call,
          HR, bind_Debugf, bind_call, bind_call, bind_call.
  eexists. split; [reflexivity|].
  unfold after_handle, socket_calls. cbv [wlog chans senders wire Interfaces calls set_wlog set_Interfaces set_calls].
  rewrite <- !app_assoc. repeat split.
Qed.

End OpenedHandle.

Lemma interface_without_ipv4_is_fatal_witness :
  exists w',
    initalizeInterface tunnel_sys tun0_config world0 = Stop Fatal w'
    /\ wlog w' = wlog world0 ++ [(LDebug, MsgOpenedPcap (iface tun0_config));
                                 (LFatal, MsgNoListen (iface tun0_config))]
    /\ calls w' = calls world0 ++ enumeration world0 ++ handle_calls tun0_config.
Proof.
  refine (interface_without_ipv4_is_fatal tunnel_sys tun0_config (mkHandle LinkTypeNull)
            world0 _ _ _ _).
  - right. eexists. reflexivity.
  - repeat split.
  - vm_compute. discriminate.
  - vm_compute. reflexivity.
Defined.

Lemma initalizeInterface_opens_witness :
  exists w',
    initalizeInterface example_sys eth0_config world0
    = Ret (mkListen (iface eth0_config) (filter eth0_config) (ports eth0_config)
             (ipaddr eth0_config) (promisc eth0_config)
             (Some (mkHandle LinkTypeEthernet)) (Some (mkRawConn None None))
             (timeout eth0_config) (sendpkt eth0_config)) w'
    /\ calls w' = calls world0 ++ enumeration world0 ++ handle_calls eth0_config
                  ++ socket_calls eth0_config
                       (IP_String (IP (mkInterfaceAddress [xc0; xa8; x01; x01]
                                         [xff; xff; xff; x00] [xc0; xa8; x01; xff] [])))
    /\ Interfaces w' = registry example_sys world0
    /\ chans w' = chans world0 /\ senders w' = senders world0 /\ wire w' = wire world0.
Proof.
  refine (initalizeInterface_opens example_sys eth0_config (mkHandle LinkTypeEthernet)
            world0 _ _
            (mkInterfaceAddress [xc0; xa8; x01; x01] [xff; xff; xff; x00]
               [xc0; xa8; x01; xff] [])
            (mkRawConn None None) _ _ _).
  - right. eexists. reflexivity.
  - repeat split.
  - vm_compute. reflexivity.
  - reflexivity.
  - reflexivity.
Defined.

Lemma getConfiguredInterfaces_Ret_inv (os : Sys) (w w1 : World) :
  getConfiguredInterfaces os w = Ret tt w1 -> can_enumerate os w.
Proof.
  unfold getConfiguredInterfaces, bind, gets, can_enumerate. simpl.
  destruct (Nat.eqb (size (Interfaces w)) 0) eqn:E; simpl.
  - unfold call. simpl. destruct (FindAllDevs os) as [ifs|err]; [eauto | discriminate].
  - intros _. left. now apply Nat.eqb_neq.
Qed.

(** [initalizeInterface] returns only when the registry knows the interface
    with an IPv4 address and every call to libpcap and to the socket layer
    succeeded: any refusal is fatal. *)
Theorem initalizeInterface_returns_only_if (os : Sys) (l l' : Listen) (w w' : World) :
  initalizeInterface os l w = Ret l' w' ->
  exists h rc ip,
    handle_opens os l h
    /\ first_ipv4 (addresses_of (registry os w) (iface l)) = Some ip
    /\ ListenPacket os "ip:udp" (IP_String (IP ip)) = None
    /\ NewRawConn os (IP_String (IP ip)) = inl rc
    /\ l' = mkListen (iface l) (filter l) (ports l) (ipaddr l) (promisc l)
              (Some h) (Some rc) (timeout l) (sendpkt l).
Proof.
  intros H.
  assert (HC : can_enumerate os w).
  { unfold initalizeInterface in H. unfold bind at 1 in H.
    destruct (getConfiguredInterfaces os w) as [[] w1|] eqn:EG; [|discriminate].
    now apply getConfiguredInterfaces_Ret_inv in EG. }
  rewrite (initalizeInterface_enter os l w HC) in H.
  destruct (Nat.eqb (length (addresses_of (registry os w) (iface l))) 0); [discriminate|].
  rewrite bind_call in H.
  destruct (NewInactiveHandle os (iface l)) eqn:E1; [discriminate|].
  rewrite bind_check_None, bind_call in H.
  destruct (SetTimeout os (iface l) (timeout l)) eqn:E2; [discriminate|].
  rewrite bind_check_None, bind_call in H.
  destruct (SetPromisc os (iface l) (promisc l)) eqn:E3; [discriminate|].
  rewrite bind_check_None, bind_call in H.
  destruct (SetSnapLen os (iface l) 9000) eqn:E4; [discriminate|].
  rewrite bind_check_None, bind_call in H.
  destruct (Activate os (iface l)) as [h|] eqn:E5; [|discriminate].
  rewrite bind_call in H.
  destruct (SetBPFFilter os (iface l) (filter l)) eqn:E6; [discriminate|].
  rewrite bind_check_None, bind_call in H.
  destruct (SetDirection os (iface l)) eqn:E7; [discriminate|].
  rewrite bind_check_None, bind_Debugf in H.
  destruct (first_ipv4 (addresses_of (registry os w) (iface l))) as [ip|] eqn:EF;
    [|discriminate].
  cbv zeta in H. rewrite bind_Debugf, bind_call in H.
  destruct (ListenPacket os "ip:udp" (IP_String (IP ip))) eqn:E8; [discriminate|].
  rewrite bind_check_None, bind_Debugf, bind_call, bind_call in H.
  destruct (NewRawConn os (IP_String (IP ip))) as [rc|] eqn:E9; [|discriminate].
  rewrite bind_Debugf, bind_call, bind_call, bind_call in H.
  unfold pure in H.
  assert (El : l' = mkListen (iface l) (filter l) (ports l) (ipaddr l) (promisc l)
                      (Some h) (Some rc) (timeout l) (sendpkt l)).
  { exact (eq_sym (f_equal (fun r : Res Listen =>
                              match r with Ret x _ => x | Stop _ _ => l' end) H)). }
  exists h, rc, ip. repeat split; assumption.
Qed.

Lemma initalizeInterface_returns_only_if_witness :
  exists h rc ip,
    handle_opens example_sys eth0_config h
    /\ first_ipv4 (addresses_of (registry example_sys world0) (iface eth0_config)) = Some ip
    /\ ListenPacket example_sys "ip:udp" (IP_String (IP ip)) = None
    /\ NewRawConn example_sys (IP_String (IP ip)) = inl rc
    /\ eth0 = mkListen (iface eth0_config) (filter eth0_config) (ports eth0_config)
                (ipaddr eth0_config) (promisc eth0_config)
                (Some h) (Some rc) (timeout eth0_config) (sendpkt eth0_config).
Proof.
  apply (initalizeInterface_returns_only_if example_sys eth0_config eth0 world0
           (outcome (initalizeInterface example_sys eth0_config world0))).
  vm_compute. reflexivity.
Defined.

(** When libpcap cannot list the interfaces the process ends with its error;
    no handle is asked for. *)
Theorem enumeration_error_is_fatal (os : Sys) (l : Listen) (err : string) (w : World) :
  Interfaces w = ∅ ->
  FindAllDevs os = inr err ->
  initalizeInterface os l w
  = Stop Fatal (set_wlog (fun lg => lg ++ [(LFatal, MsgFindAllDevs err)])
                  (set_calls (fun cs => cs ++ [CallFindAllDevs]) w)).
Proof.
  intros HE HF. unfold initalizeInterface. unfold bind at 1.
  unfold getConfiguredInterfaces. rewrite bind_gets, HE, map_size_empty.
  cbn [Nat.eqb negb]. rewrite bind_call, HF. reflexivity.
Qed.

Lemma enumeration_error_is_fatal_witness :
  initalizeInterface failing_sys eth0_config world0
  = Stop Fatal (set_wlog (fun lg => lg ++ [(LFatal, MsgFindAllDevs "permission denied")])
                  (set_calls (fun cs => cs ++ [CallFindAllDevs]) world0)).
Proof.
  apply (enumeration_error_is_fatal failing_sys eth0_config "permission denied" world0);
    reflexivity.
Defined.

(** The loop over the addresses of an interface takes the first one that has
    a 4-byte form and passes over those before it, which have none. *)
Theorem first_ipv4_is_first (addrs : list InterfaceAddress) (ip : InterfaceAddress) :
  first_ipv4 addrs = Some ip
  <-> exists before after,
        addrs = before ++ ip :: after
        /\ Forall (fun a => To4 (IP a) = []) before
        /\ To4 (IP ip) <> [].
Proof.
  split.
  - induction addrs as [|a addrs IH]; intros H; simpl in H; [discriminate|].
    destruct (To4 (IP a)) as [|b r] eqn:E.
    + destruct (IH H) as (before & after & -> & HF & HN).
      exists (a :: before), after. repeat split; [now constructor | exact HN].
    + inversion H; subst. exists [], addrs. repeat split; [constructor | now rewrite E].
  - intros (before & after & -> & HF & HN).
    induction HF as [|a before Ha _ IH]; simpl.
    + destruct (To4 (IP ip)); [congruence | reflexivity].
    + now rewrite Ha.
Qed.

Example first_ipv4_dual_stack :
  first_ipv4 dual_stack
  = Some (mkInterfaceAddress [x0a; x00; x00; x01] [xff; x00; x00; x00] [x0a; xff; xff; xff] []).
Proof. reflexivity. Qed.

(** The destination text of a listener is not checked when a message is
    rewritten: when it has no 4-byte form (an empty text, an IPv6 address,
    anything [ParseIP] refuses) the header is handed to the socket all the
    same, with a nil destination. *)
Theorem unparsable_destination_is_not_checked (lib : Lib) (l : Listen) (sndpkt : Send)
    (parser : Parser) (d : Decoded) (rc : RawConn) (w : World) :
  parser_for (linkType sndpkt) = Some parser ->
  DecodeLayers lib parser (Data (packet sndpkt)) = inl d ->
  In LayerTypeIPv4 (decoded d) -> In LayerTypeUDP (decoded d) ->
  raw l = Some rc -> SetControlMessage_err rc = None ->
  To4 (ParseIP lib (ipaddr l)) = [] ->
  exists w' wr,
    sendPacket lib l sndpkt w = Ret tt w'
    /\ wire w' = wire w ++ [wr]
    /\ w_iface wr = iface l /\ Dst (w_header wr) = []
    /\ w_payload wr = payload d.
Proof.
  intros HP HD H4 HU HR HC HT.
  rewrite (sendPacket_at_socket lib l sndpkt parser d rc HP HD H4 HU HR w), HC.
  unfold bind, write. simpl.
  destruct (WriteTo_err rc); eexists _, _; (split; [reflexivity|]); simpl;
    repeat split; exact HT.
Qed.

Lemma unparsable_destination_is_not_checked_witness :
  exists w' wr,
    sendPacket example_lib eth1_no_destination (from_eth0 frame_plain) world0 = Ret tt w'
    /\ wire w' = wire world0 ++ [wr]
    /\ w_iface wr = iface eth1_no_destination /\ Dst (w_header wr) = []
    /\ w_payload wr = payload decoded_plain.
Proof.
  apply (unparsable_destination_is_not_checked example_lib eth1_no_destination
           (from_eth0 frame_plain) ethernet_parser decoded_plain (mkRawConn None None) world0).
  - reflexivity.
  - vm_compute. reflexivity.
  - simpl. tauto.
  - simpl. tauto.
  - reflexivity.
  - reflexivity.
  - reflexivity.
Defined.
